(** * Escrow phase engine, event query and deployment scripts
      of the 1inch-fusion / Stellar cross-chain swap client

    A shallow embedding of the JavaScript client scripts:

    - [QueryEscrowEvents]   : jsclient/query-escrow-events.js
    - [QueryEscrowEnhanced] : jsclient/query-escrow-enhanced.js
    - [QueryEscrow]         : the basic query tool (unnamed/part_000)
    - [OrderInit]           : jsclient/order-init.js
    - [OrderInitDeploy]     : the order script that also deploys, funds and
                              verifies EscrowSrc (unnamed/part_001)

    Conventions of the embedding.

    - JavaScript numbers and BigInts that hold integers (block timestamps,
      timelocks, block numbers, wei amounts, gas limits) are [Z].  Sums,
      differences and comparisons of such numbers are exact inside the
      safe-integer range, which covers every epoch second a JavaScript
      [Date] can hold.
    - The quotient [a / b] of two numbers is a double: module [Number] rounds
      it to 53 significant bits before [Math.floor] is taken, and prints a
      number the way a template literal does (shortest digits, exponent form
      from 1e21 on).  The JavaScript remainder [%] is exact on doubles,
      truncates towards zero and is [Z.rem].  [n.toString ()] of a BigInt
      prints every digit.
    - A value that is a number in some branches and a string in others
      ([timeRemaining]) is the sum type [NumOrStr].
    - [new Date (ms).toISOString ()] is not rendered: the text is kept as the
      millisecond value it prints, [ISOString ms].  The functions named
      [determineEscrowPhase] give the object that the source function
      returns; the [RangeError] that [toISOString] throws for a time beyond
      what a [Date] can hold is modelled by [Js.toISOString] and by
      [QueryEscrowEnhanced.determineEscrowPhase_call].  The other console
      lines of the query tools are not modelled.
    - A promise that may reject, or a call that may throw, is a [Result]; the
      chain client (provider, wallet, contract) is a record of such results.
    - Mutation of the [escrowDeployment] object, console output and the
      transactions handed to the wallet are threaded through the [Script]
      state monad, whose state survives a thrown error as it does in
      JavaScript. *)

From Stdlib Require Import ZArith DecimalString Lia.
From Stdlib Require Import Ascii.
From Stdlib Require DecimalPos DecimalZ.
From stdpp Require Import base strings list gmap fin_maps.

Local Open Scope Z_scope.

(* ===================================================================== *)
(** * JavaScript values used by the scripts *)
(* ===================================================================== *)

Module Js.

(** Outcome of a call that may throw (or of an awaited promise that may
    reject): the value, or the [message] of the thrown [Error]. *)
Inductive Result (A : Type) : Type :=
| Ok (a : A)
| Throw (message : string).
Arguments Ok {A} a.
Arguments Throw {A} message.

Definition bind {A B} (r : Result A) (k : A -> Result B) : Result B :=
  match r with
  | Ok a => k a
  | Throw m => Throw m
  end.

(** [for (const x of xs) { ys.push (await f x) }] *)
Fixpoint forOf {A B} (f : A -> Result B) (xs : list A) : Result (list B) :=
  match xs with
  | [] => Ok []
  | x :: xs' =>
      bind (f x) (fun y => bind (forOf f xs') (fun ys => Ok (y :: ys)))
  end.

(** [n.toString ()] of a BigInt, and of a number that holds a safe
    integer: every decimal digit, with a leading minus sign for negative
    values.  What is printed for a larger number is [Number.toString]. *)
Definition toString (n : Z) : string :=
  NilZero.string_of_int (Z.to_int n).

(** A value tested with [typeof v === 'string']. *)
Inductive NumOrStr : Type :=
| Num (n : Z)
| Str (s : string).

(** A text that is either an ISO rendering of a [Date] built from [ms]
    milliseconds, or a literal. *)
Inductive TimeText : Type :=
| ISOString (ms : Z)
| Text (s : string).

(** The largest time value of a [Date], in milliseconds on either side of
    the epoch. *)
Definition MAX_TIME_VALUE : Z := 8640000000000000.

(** [new Date (ms).toISOString ()]: beyond the largest time value the date
    is invalid and [toISOString] throws a [RangeError]. *)
Definition toISOString (ms : Z) : Result TimeText :=
  if Z.abs ms <=? MAX_TIME_VALUE then Ok (ISOString ms)
  else Throw "Invalid time value".

End Js.

Import Js.

(* ===================================================================== *)
(** * JavaScript numbers: quotient, floor and printing *)
(* ===================================================================== *)

(** A number that holds an integer is given by that integer.  The quotient
    of two of them is a double, [significand * 2 ^ exponent], rounded to the
    nearest value with a significand of 53 bits, ties to the even one. *)
Module Number.

Definition MAX_SAFE_INTEGER : Z := 9007199254740991.

Record Double : Type := { significand : Z; exponent : Z }.

(** [n / d] rounded to the nearest integer, ties to the even one, for
    [0 <= n] and [0 < d]. *)
Definition nearest (n d : Z) : Z :=
  let q := n / d in
  let r := n mod d in
  if 2 * r <? d then q
  else if d <? 2 * r then q + 1
  else if Z.even q then q else q + 1.

(** Numerator and denominator of [n / d * 2 ^ s]. *)
Definition num (n s : Z) : Z := n * 2 ^ Z.max 0 s.
Definition den (d s : Z) : Z := d * 2 ^ Z.max 0 (- s).

(** [a / b] for [0 < b]: the scale [s] is the one at which the quotient
    has 53 bits before the binary point, which is where it is rounded. *)
Definition div (a b : Z) : Double :=
  if a =? 0 then {| significand := 0; exponent := 0 |}
  else
    let n := Z.abs a in
    let t := 52 + Z.log2 b - Z.log2 n in
    let s := if num n t <? 2 ^ 52 * den b t then t + 1 else t in
    {| significand := Z.sgn a * nearest (num n s) (den b s);
       exponent := - s |}.

(** [Math.floor (x)] *)
Definition floor (x : Double) : Z :=
  if 0 <=? x.(exponent) then x.(significand) * 2 ^ x.(exponent)
  else x.(significand) / 2 ^ (- x.(exponent)).

(** Whether the decimal [c] reads back as the double [x], for an
    integer-valued [x] of at least 2 ^ 53: [c] lies within half a gap of
    [x], the ends included when the significand of [x] is even.  The gap
    below a power of two is half the gap above it. *)
Definition inside (x c : Z) : bool :=
  let e := Z.log2 x - 52 in
  let m := x / 2 ^ e in
  let above := 2 ^ e in
  let below := if m =? 2 ^ 52 then 2 ^ (e - 1) else 2 ^ e in
  if Z.even m then (2 * x - below <=? 2 * c) && (2 * c <=? 2 * x + above)
  else (2 * x - below <? 2 * c) && (2 * c <? 2 * x + above).

(** Among the two multiples of [p] around [x], the one that reads back
    as [x]; the closer one when both do. *)
Definition candidate (x p : Z) : option Z :=
  let c1 := x / p * p in
  let c2 := c1 + p in
  match inside x c1, inside x c2 with
  | true, true =>
      if x - c1 <? c2 - x then Some c1
      else if c2 - x <? x - c1 then Some c2
      else if Z.even (x / p) then Some c1 else Some c2
  | true, false => Some c1
  | false, true => Some c2
  | false, false => None
  end.

(** The decimal with the fewest significant digits that reads back
    as [x]: the digits that are printed for [x]. *)
Fixpoint shortest_from (x : Z) (zeros : nat) : Z :=
  match zeros with
  | O => x
  | S zeros' =>
      match candidate x (10 ^ Z.of_nat zeros) with
      | Some c => c
      | None => shortest_from x zeros'
      end
  end.

Definition shortest (x : Z) : Z :=
  shortest_from x (String.length (Js.toString x) - 1).

Fixpoint stripZeros (s : string) : string :=
  match s with
  | EmptyString => EmptyString
  | String c s' =>
      let t := stripZeros s' in
      if bool_decide (c = "0"%char) && bool_decide (t = EmptyString)
      then EmptyString
      else String c t
  end.

(** The exponent form [d.ddde+n] of a decimal of more than 21 digits. *)
Definition exponential (digits : string) : string :=
  match digits with
  | EmptyString => EmptyString
  | String d rest =>
      let fraction := stripZeros rest in
      String d
        (if bool_decide (fraction = EmptyString) then EmptyString
         else "." +:+ fraction)
        +:+ "e+" +:+ Js.toString (Z.of_nat (String.length rest))
  end.

(** The text of a number in a template literal.  A safe integer is printed
    with all its digits; a larger one with its shortest digits, padded with
    zeros up to 21 digits and in exponent form beyond. *)
Definition toString (x : Z) : string :=
  if Z.abs x <=? MAX_SAFE_INTEGER then Js.toString x
  else
    let digits := Js.toString (shortest (Z.abs x)) in
    (if x <? 0 then "-" else EmptyString)
      +:+ (if (String.length digits <=? 21)%nat then digits
           else exponential digits).

End Number.

Declare Scope result_scope.
Delimit Scope result_scope with result.
Notation "'do' x <- c ; k" := (Js.bind c (fun x => k))
(at level 10, x name, c at level 100, k at level 200) : result_scope.

(* ===================================================================== *)
(** * JavaScript string methods used by the scripts *)
(* ===================================================================== *)

Module JsString.

(** [s.startsWith (p)] *)
Fixpoint startsWith (p s : string) : bool :=
  match p, s with
  | EmptyString, _ => true
  | String _ _, EmptyString => false
  | String a p', String b s' => bool_decide (a = b) && startsWith p' s'
  end.

(** [s.endsWith (p)]: some suffix of [s] is [p]. *)
Fixpoint endsWith (p s : string) : bool :=
  bool_decide (s = p)
  || match s with
     | EmptyString => false
     | String _ s' => endsWith p s'
     end.

(** [s.slice (n)] *)
Fixpoint slice (n : nat) (s : string) : string :=
  match n, s with
  | O, _ => s
  | S _, EmptyString => EmptyString
  | S n', String _ s' => slice n' s'
  end.

(** [s.replace (pattern, replacement)] with a string pattern: only the
    first occurrence is replaced. *)
Fixpoint replace (pattern replacement s : string) : string :=
  if startsWith pattern s then
    replacement +:+ slice (String.length pattern) s
  else
    match s with
    | EmptyString => EmptyString
    | String c s' => String c (replace pattern replacement s')
    end.

(** [s.replace (/[...]/g, c)] with a class of ASCII characters: every
    character of the class is replaced by the character [c]. *)
Fixpoint replaceEach (class : Ascii.ascii -> bool) (c : Ascii.ascii)
  (s : string) : string :=
  match s with
  | EmptyString => EmptyString
  | String a s' =>
      String (if class a then c else a) (replaceEach class c s')
  end.

End JsString.

(* ===================================================================== *)
(** * Data shared by the three query tools *)
(* ===================================================================== *)

Module Escrow.

(** The keys of the [PHASES] constant, in declaration order. *)
Inductive Phase : Type :=
| DEPLOYED
| FINALITY
| PRIVATE_WITHDRAWAL
| PUBLIC_WITHDRAWAL
| PRIVATE_CANCELLATION
| PUBLIC_CANCELLATION
| EXPIRED.

(** [PHASES.k]: every key maps to its own name. *)
Definition PHASES (k : Phase) : string :=
  match k with
  | DEPLOYED => "DEPLOYED"
  | FINALITY => "FINALITY"
  | PRIVATE_WITHDRAWAL => "PRIVATE_WITHDRAWAL"
  | PUBLIC_WITHDRAWAL => "PUBLIC_WITHDRAWAL"
  | PRIVATE_CANCELLATION => "PRIVATE_CANCELLATION"
  | PUBLIC_CANCELLATION => "PUBLIC_CANCELLATION"
  | EXPIRED => "EXPIRED"
  end.

(** Position of a phase in the declaration order of [PHASES]. *)
Definition phase_index (k : Phase) : nat :=
  match k with
  | DEPLOYED => 0
  | FINALITY => 1
  | PRIVATE_WITHDRAWAL => 2
  | PUBLIC_WITHDRAWAL => 3
  | PRIVATE_CANCELLATION => 4
  | PUBLIC_CANCELLATION => 5
  | EXPIRED => 6
  end%nat.

(** The four fields of [immutables.timelocks] that the phase determination
    reads; each is an absolute time in epoch seconds. *)
Record Timelocks : Type := {
  srcWithdrawal : Z;
  srcPublicWithdrawal : Z;
  srcCancellation : Z;
  srcPublicCancellation : Z
}.

(** The [immutables] argument; only [timelocks] is read by the tools. *)
Record Immutables : Type := { timelocks : Timelocks }.

(** The object returned by [determineEscrowPhase] in
    query-escrow-events.js and query-escrow-enhanced.js. *)
Record PhaseInfo : Type := {
  phase : Phase;
  description : string;
  timeRemaining : NumOrStr;
  nextPhase : Phase;
  nextPhaseTime : TimeText;
  allowedActions : list string
}.

(** The object returned by the basic tool, which has no [allowedActions]
    property. *)
Record BasicPhaseInfo : Type := {
  basic_phase : Phase;
  basic_description : string;
  basic_timeRemaining : NumOrStr;
  basic_nextPhase : Phase;
  basic_nextPhaseTime : TimeText
}.

End Escrow.

Import Escrow.

(* ===================================================================== *)
(** * jsclient/query-escrow-events.js *)
(* ===================================================================== *)

Module QueryEscrowEvents.

(** ** The chain client seen by [queryContractEvents] *)

(** The three events of [ESCROW_SRC_ABI]. *)
Inductive EventName : Type :=
| Withdrawal
| EscrowCancelled
| FundsRescued.

(** [event.args] of a decoded log. *)
Inductive EventArgs : Type :=
| WithdrawalArgs (secret : string)
| EscrowCancelledArgs
| FundsRescuedArgs (token : string) (amount : Z).

(** [args.secret], [args.token], [args.amount] of a decoded log:
    [None] is JavaScript's [undefined]. *)
Definition args_secret (a : EventArgs) : option string :=
  match a with WithdrawalArgs s => Some s | _ => None end.
Definition args_token (a : EventArgs) : option string :=
  match a with FundsRescuedArgs t _ => Some t | _ => None end.
Definition args_amount (a : EventArgs) : option Z :=
  match a with FundsRescuedArgs _ n => Some n | _ => None end.

(** An entry of the array that [queryFilter] resolves to.  A log that the
    contract interface could not decode has no [args] property:
    [log_args] is [None]. *)
Record EventLog : Type := {
  log_args : option EventArgs;
  log_blockNumber : Z;
  log_transactionHash : string
}.

(** A block as the provider returns it; of its properties the tools read
    [timestamp] only. *)
Record Block : Type := {
  block_number : Z;
  block_hash : string;
  block_timestamp : Z
}.

(** [provider.getBlockNumber ()], [contract.queryFilter (filter, from, to)]
    and [provider.getBlock (n)], which resolves to [null] for a block that
    the provider does not have. *)
Record Provider : Type := {
  getBlockNumber : Result Z;
  queryFilter : EventName -> Z -> Z -> Result (list EventLog);
  getBlock : Z -> Result (option Block)
}.

(** [event.args.prop]: reading a property of the missing [args] of an
    undecoded log throws a [TypeError]. *)
Definition event_args (event : EventLog) (prop : string)
  : Result EventArgs :=
  match event.(log_args) with
  | Some args => Ok args
  | None =>
      Throw ("Cannot read properties of undefined (reading '" +:+ prop
               +:+ "')")
  end.

(** [block.timestamp]: a [TypeError] when the block is [null]. *)
Definition timestamp (block : option Block) : Result Z :=
  match block with
  | Some b => Ok b.(block_timestamp)
  | None => Throw "Cannot read properties of null (reading 'timestamp')"
  end.

Record WithdrawalRecord : Type := {
  w_secret : option string;
  w_blockNumber : Z;
  w_timestamp : Z;
  w_transactionHash : string
}.

Record CancellationRecord : Type := {
  c_blockNumber : Z;
  c_timestamp : Z;
  c_transactionHash : string
}.

Record RescueRecord : Type := {
  r_token : option string;
  r_amount : option Z;
  r_blockNumber : Z;
  r_timestamp : Z;
  r_transactionHash : string
}.

(** The object returned by [queryContractEvents]. *)
Record ContractEvents : Type := {
  withdrawals : list WithdrawalRecord;
  cancellations : list CancellationRecord;
  rescues : list RescueRecord;
  totalEvents : Z
}.

(** ** [queryContractEvents]

    The [catch] block logs the error and throws it again, so the function
    rejects with the error of the first statement of the [try] block that
    throws: a provider call, or a property read in one of the three loops.
    The properties of each pushed object are evaluated in the order in
    which they are written. *)

Local Open Scope result_scope.

Definition queryContractEvents (provider : Provider)
  : Result ContractEvents :=
  do currentBlock <- provider.(getBlockNumber);
  let fromBlock := Z.max 0 (currentBlock - 100) in
  do withdrawalEvents <-
    provider.(queryFilter) Withdrawal fromBlock currentBlock;
  do cancellationEvents <-
    provider.(queryFilter) EscrowCancelled fromBlock currentBlock;
  do rescueEvents <-
    provider.(queryFilter) FundsRescued fromBlock currentBlock;
  do withdrawals <-
    forOf (fun event =>
             do block <- provider.(getBlock) event.(log_blockNumber);
             do args <- event_args event "secret";
             do blockTime <- timestamp block;
             Ok {| w_secret := args_secret args;
                   w_blockNumber := event.(log_blockNumber);
                   w_timestamp := blockTime;
                   w_transactionHash := event.(log_transactionHash) |})
          withdrawalEvents;
  do cancellations <-
    forOf (fun event =>
             do block <- provider.(getBlock) event.(log_blockNumber);
             do blockTime <- timestamp block;
             Ok {| c_blockNumber := event.(log_blockNumber);
                   c_timestamp := blockTime;
                   c_transactionHash := event.(log_transactionHash) |})
          cancellationEvents;
  do rescues <-
    forOf (fun event =>
             do block <- provider.(getBlock) event.(log_blockNumber);
             do args <- event_args event "token";
             do blockTime <- timestamp block;
             Ok {| r_token := args_token args;
                   r_amount := args_amount args;
                   r_blockNumber := event.(log_blockNumber);
                   r_timestamp := blockTime;
                   r_transactionHash := event.(log_transactionHash) |})
          rescueEvents;
  Ok {| withdrawals := withdrawals;
        cancellations := cancellations;
        rescues := rescues;
        totalEvents :=
          Z.of_nat (length withdrawalEvents)
          + Z.of_nat (length cancellationEvents)
          + Z.of_nat (length rescueEvents) |}.

Local Close Scope result_scope.

(** ** [determineEscrowPhase] *)

Definition determineEscrowPhase (immutables : Immutables) (currentTime : Z)
  : PhaseInfo :=
  let timelocks := immutables.(timelocks) in
  if currentTime <? timelocks.(srcWithdrawal) then
    {| phase := FINALITY;
       description := "Contract is in finality period - no actions allowed";
       timeRemaining := Num (timelocks.(srcWithdrawal) - currentTime);
       nextPhase := PRIVATE_WITHDRAWAL;
       nextPhaseTime := ISOString (timelocks.(srcWithdrawal) * 1000);
       allowedActions := ["None - waiting for finality"] |}
  else if currentTime <? timelocks.(srcPublicWithdrawal) then
    {| phase := PRIVATE_WITHDRAWAL;
       description :=
         "Private withdrawal period - maker can withdraw with secret";
       timeRemaining := Num (timelocks.(srcPublicWithdrawal) - currentTime);
       nextPhase := PUBLIC_WITHDRAWAL;
       nextPhaseTime := ISOString (timelocks.(srcPublicWithdrawal) * 1000);
       allowedActions :=
         ["Maker withdraw with secret"; "Taker withdraw with secret"] |}
  else if currentTime <? timelocks.(srcCancellation) then
    {| phase := PUBLIC_WITHDRAWAL;
       description :=
         "Public withdrawal period - anyone can withdraw with secret";
       timeRemaining := Num (timelocks.(srcCancellation) - currentTime);
       nextPhase := PRIVATE_CANCELLATION;
       nextPhaseTime := ISOString (timelocks.(srcCancellation) * 1000);
       allowedActions := ["Anyone withdraw with secret"] |}
  else if currentTime <? timelocks.(srcPublicCancellation) then
    {| phase := PRIVATE_CANCELLATION;
       description := "Private cancellation period - maker can cancel";
       timeRemaining :=
         Num (timelocks.(srcPublicCancellation) - currentTime);
       nextPhase := PUBLIC_CANCELLATION;
       nextPhaseTime :=
         ISOString (timelocks.(srcPublicCancellation) * 1000);
       allowedActions := ["Maker cancel"; "Anyone withdraw with secret"] |}
  else
    {| phase := PUBLIC_CANCELLATION;
       description := "Public cancellation period - anyone can cancel";
       timeRemaining := Str "No time limit";
       nextPhase := EXPIRED;
       nextPhaseTime := Text "N/A";
       allowedActions := ["Anyone cancel"; "Anyone withdraw with secret"] |}.

(** ** [formatTimeRemaining] *)

(** The four local constants [days], [hours], [minutes], [secs]. *)
Record Parts : Type := { days : Z; hours : Z; minutes : Z; secs : Z }.

Definition parts (seconds : Z) : Parts :=
  {| days := Number.floor (Number.div seconds 86400);
     hours := Number.floor (Number.div (Z.rem seconds 86400) 3600);
     minutes := Number.floor (Number.div (Z.rem seconds 3600) 60);
     secs := Z.rem seconds 60 |}.

Definition formatTimeRemaining (seconds : NumOrStr) : string :=
  match seconds with
  | Str s => s
  | Num n =>
      let p := parts n in
      if 0 <? p.(days) then
        Number.toString p.(days) +:+ "d "
          +:+ Number.toString p.(hours) +:+ "h "
          +:+ Number.toString p.(minutes) +:+ "m "
          +:+ Number.toString p.(secs) +:+ "s"
      else if 0 <? p.(hours) then
        Number.toString p.(hours) +:+ "h "
          +:+ Number.toString p.(minutes) +:+ "m "
          +:+ Number.toString p.(secs) +:+ "s"
      else if 0 <? p.(minutes) then
        Number.toString p.(minutes) +:+ "m "
          +:+ Number.toString p.(secs) +:+ "s"
      else
        Number.toString p.(secs) +:+ "s"
  end.

(** ** [queryEscrowContract] (the same function in the three query tools)

    The reads, in the order of the calls: [contract.FACTORY ()],
    [contract.PROXY_BYTECODE_HASH ()], [contract.RESCUE_DELAY ()],
    [provider.getBalance (contractAddress)] and
    [provider.getBlock ('latest')].  A chain has a latest block, and its
    timestamp is a time that a [Date] can hold, so that the console line
    that renders it does not throw.  The [catch] block logs the error and
    throws it again. *)

Record ContractReads : Type := {
  FACTORY : Result string;
  PROXY_BYTECODE_HASH : Result string;
  RESCUE_DELAY : Result Z;
  getBalance : Result Z;
  getLatestBlock : Result Block
}.

Record ContractState : Type := {
  factory : string;
  proxyBytecodeHash : string;
  rescueDelay : string;
  balance : string;
  currentTime : Z
}.

Local Open Scope result_scope.

Definition queryEscrowContract (reads : ContractReads)
  : Result ContractState :=
  do factory <- reads.(FACTORY);
  do proxyBytecodeHash <- reads.(PROXY_BYTECODE_HASH);
  do rescueDelay <- reads.(RESCUE_DELAY);
  do balance <- reads.(getBalance);
  do currentBlock <- reads.(getLatestBlock);
  Ok {| factory := factory;
        proxyBytecodeHash := proxyBytecodeHash;
        rescueDelay := toString rescueDelay;
        balance := toString balance;
        currentTime := currentBlock.(block_timestamp) |}.

(** ** [queryDeploymentTransaction]

    [getCode] is the outcome of [provider.getCode (contractAddress)] and
    [blockNumber] that of [provider.getBlockNumber ()].  The [catch] block
    returns [null], which is [None]. *)

Record DeploymentInfo : Type := {
  info_blockNumber : string;
  info_transactionHash : string;
  info_timestamp : string
}.

(** [try { body } catch (e) { handler }] around an expression. *)
Definition catch {A} (body : Result A) (handler : string -> Result A)
  : Result A :=
  match body with
  | Ok a => Ok a
  | Throw m => handler m
  end.

Definition queryDeploymentTransaction (getCode : Result string)
  (blockNumber : Result Z) : Result (option DeploymentInfo) :=
  catch
    (do code <- getCode;
     if bool_decide (code = "0x") then Ok None
     else
       do currentBlock <- blockNumber;
       let fromBlock := Z.max 0 (currentBlock - 1000) in
       Ok (Some {| info_blockNumber := "Unknown";
                   info_transactionHash := "Unknown";
                   info_timestamp := "Unknown" |}))
    (fun _ => Ok None).

Local Close Scope result_scope.

End QueryEscrowEvents.

(* ===================================================================== *)
(** * jsclient/query-escrow-enhanced.js *)
(* ===================================================================== *)

Module QueryEscrowEnhanced.

(** ** [determineEscrowPhase]

    The same cascade as in query-escrow-events.js; the only addition in
    the source is a console line with the time since deployment.  This is
    the object that the function returns; the call with the error that the
    rendering of a date can throw is [determineEscrowPhase_call] below. *)

Definition determineEscrowPhase (immutables : Immutables) (currentTime : Z)
  : PhaseInfo :=
  let timelocks := immutables.(timelocks) in
  if currentTime <? timelocks.(srcWithdrawal) then
    {| phase := FINALITY;
       description := "Contract is in finality period - no actions allowed";
       timeRemaining := Num (timelocks.(srcWithdrawal) - currentTime);
       nextPhase := PRIVATE_WITHDRAWAL;
       nextPhaseTime := ISOString (timelocks.(srcWithdrawal) * 1000);
       allowedActions := ["None - waiting for finality"] |}
  else if currentTime <? timelocks.(srcPublicWithdrawal) then
    {| phase := PRIVATE_WITHDRAWAL;
       description :=
         "Private withdrawal period - maker can withdraw with secret";
       timeRemaining := Num (timelocks.(srcPublicWithdrawal) - currentTime);
       nextPhase := PUBLIC_WITHDRAWAL;
       nextPhaseTime := ISOString (timelocks.(srcPublicWithdrawal) * 1000);
       allowedActions :=
         ["Maker withdraw with secret"; "Taker withdraw with secret"] |}
  else if currentTime <? timelocks.(srcCancellation) then
    {| phase := PUBLIC_WITHDRAWAL;
       description :=
         "Public withdrawal period - anyone can withdraw with secret";
       timeRemaining := Num (timelocks.(srcCancellation) - currentTime);
       nextPhase := PRIVATE_CANCELLATION;
       nextPhaseTime := ISOString (timelocks.(srcCancellation) * 1000);
       allowedActions := ["Anyone withdraw with secret"] |}
  else if currentTime <? timelocks.(srcPublicCancellation) then
    {| phase := PRIVATE_CANCELLATION;
       description := "Private cancellation period - maker can cancel";
       timeRemaining :=
         Num (timelocks.(srcPublicCancellation) - currentTime);
       nextPhase := PUBLIC_CANCELLATION;
       nextPhaseTime :=
         ISOString (timelocks.(srcPublicCancellation) * 1000);
       allowedActions := ["Maker cancel"; "Anyone withdraw with secret"] |}
  else
    {| phase := PUBLIC_CANCELLATION;
       description := "Public cancellation period - anyone can cancel";
       timeRemaining := Str "No time limit";
       nextPhase := EXPIRED;
       nextPhaseTime := Text "N/A";
       allowedActions := ["Anyone cancel"; "Anyone withdraw with secret"] |}.

(** ** [formatTimeRemaining]: textually the function of
    query-escrow-events.js. *)

Definition formatTimeRemaining (seconds : NumOrStr) : string :=
  match seconds with
  | Str s => s
  | Num n =>
      let days := Number.floor (Number.div n 86400) in
      let hours := Number.floor (Number.div (Z.rem n 86400) 3600) in
      let minutes := Number.floor (Number.div (Z.rem n 3600) 60) in
      let secs := Z.rem n 60 in
      if 0 <? days then
        Number.toString days +:+ "d " +:+ Number.toString hours +:+ "h "
          +:+ Number.toString minutes +:+ "m "
          +:+ Number.toString secs +:+ "s"
      else if 0 <? hours then
        Number.toString hours +:+ "h " +:+ Number.toString minutes +:+ "m "
          +:+ Number.toString secs +:+ "s"
      else if 0 <? minutes then
        Number.toString minutes +:+ "m " +:+ Number.toString secs +:+ "s"
      else
        Number.toString secs +:+ "s"
  end.

(** ** Where [main] takes the immutables from

    [orderImmutables] is the [escrowDeployment.immutables] of the latest
    order file, when such a file is found, can be parsed and has that
    property.  Nothing is checked on the way: the object read from the file
    is handed to [determineEscrowPhase] as it is.  Without it, mock timelocks
    are built from the clock, [dateNow i] being the value of
    [Math.floor (Date.now () / 1000)] at its i-th evaluation. *)

Definition mockImmutables (dateNow : nat -> Z) : Immutables :=
  {| timelocks :=
       {| srcWithdrawal := dateNow 0%nat + 60;
          srcPublicWithdrawal := dateNow 1%nat + 120;
          srcCancellation := dateNow 2%nat + 300;
          srcPublicCancellation := dateNow 3%nat + 600 |} |}.

Definition selectImmutables (orderImmutables : option Immutables)
  (dateNow : nat -> Z) : Immutables :=
  match orderImmutables with
  | Some immutables => immutables
  | None => mockImmutables dateNow
  end.

(** The [phaseInfo] that [main] computes and returns, given the block
    time read from the chain ([contractState.currentTime]). *)
Definition main_phaseInfo (orderImmutables : option Immutables)
  (dateNow : nat -> Z) (currentTime : Z) : PhaseInfo :=
  determineEscrowPhase (selectImmutables orderImmutables dateNow)
    currentTime.

(** ** The calls of [main] that render dates

    [displayTimelocks] renders the four boundaries, and
    [determineEscrowPhase] renders the current time for the console before
    its cascade and the boundary of the branch taken while it builds the
    object; each rendering throws for a time that a [Date] cannot hold.
    [determineEscrowPhase_call] is the call of the function with that
    error; what it returns is the object of [determineEscrowPhase]. *)

Local Open Scope result_scope.

Definition displayTimelocks (timelocks : Timelocks) : Result unit :=
  do _ <- toISOString (timelocks.(srcWithdrawal) * 1000);
  do _ <- toISOString (timelocks.(srcPublicWithdrawal) * 1000);
  do _ <- toISOString (timelocks.(srcCancellation) * 1000);
  do _ <- toISOString (timelocks.(srcPublicCancellation) * 1000);
  Ok tt.

Definition determineEscrowPhase_call (immutables : Immutables)
  (currentTime : Z) : Result PhaseInfo :=
  let timelocks := immutables.(timelocks) in
  do _ <- toISOString (currentTime * 1000);
  if currentTime <? timelocks.(srcWithdrawal) then
    do nextPhaseTime <- toISOString (timelocks.(srcWithdrawal) * 1000);
    Ok {| phase := FINALITY;
          description :=
            "Contract is in finality period - no actions allowed";
          timeRemaining := Num (timelocks.(srcWithdrawal) - currentTime);
          nextPhase := PRIVATE_WITHDRAWAL;
          nextPhaseTime := nextPhaseTime;
          allowedActions := ["None - waiting for finality"] |}
  else if currentTime <? timelocks.(srcPublicWithdrawal) then
    do nextPhaseTime <- toISOString (timelocks.(srcPublicWithdrawal) * 1000);
    Ok {| phase := PRIVATE_WITHDRAWAL;
          description :=
            "Private withdrawal period - maker can withdraw with secret";
          timeRemaining :=
            Num (timelocks.(srcPublicWithdrawal) - currentTime);
          nextPhase := PUBLIC_WITHDRAWAL;
          nextPhaseTime := nextPhaseTime;
          allowedActions :=
            ["Maker withdraw with secret"; "Taker withdraw with secret"] |}
  else if currentTime <? timelocks.(srcCancellation) then
    do nextPhaseTime <- toISOString (timelocks.(srcCancellation) * 1000);
    Ok {| phase := PUBLIC_WITHDRAWAL;
          description :=
            "Public withdrawal period - anyone can withdraw with secret";
          timeRemaining := Num (timelocks.(srcCancellation) - currentTime);
          nextPhase := PRIVATE_CANCELLATION;
          nextPhaseTime := nextPhaseTime;
          allowedActions := ["Anyone withdraw with secret"] |}
  else if currentTime <? timelocks.(srcPublicCancellation) then
    do nextPhaseTime <-
      toISOString (timelocks.(srcPublicCancellation) * 1000);
    Ok {| phase := PRIVATE_CANCELLATION;
          description := "Private cancellation period - maker can cancel";
          timeRemaining :=
            Num (timelocks.(srcPublicCancellation) - currentTime);
          nextPhase := PUBLIC_CANCELLATION;
          nextPhaseTime := nextPhaseTime;
          allowedActions := ["Maker cancel"; "Anyone withdraw with secret"] |}
  else
    Ok {| phase := PUBLIC_CANCELLATION;
          description := "Public cancellation period - anyone can cancel";
          timeRemaining := Str "No time limit";
          nextPhase := EXPIRED;
          nextPhaseTime := Text "N/A";
          allowedActions :=
            ["Anyone cancel"; "Anyone withdraw with secret"] |}.

(** [main] from the choice of the immutables to the phase: the schedule is
    displayed, then the phase is determined, with the block time read from
    the chain.  [orderImmutables] is [Some] for an order file whose details
    [displayOrderDetails] has printed.  An error thrown on the way reaches
    the [catch] of [main], which ends the process. *)
Definition main_phase (orderImmutables : option Immutables)
  (dateNow : nat -> Z) (currentTime : Z) : Result PhaseInfo :=
  let immutables := selectImmutables orderImmutables dateNow in
  do _ <- displayTimelocks immutables.(timelocks);
  determineEscrowPhase_call immutables currentTime.

Local Close Scope result_scope.

(** ** [findLatestOrderFile]

    [files] is the answer of [fs.readdirSync (jsclientDir)].  [join] is
    [path.join].  [sort] is [Array.prototype.sort] with the comparator of
    the function, which orders by the [Date] built from [sortKeyText] of
    each name, newest first; neither the parsing of that text by [Date] nor
    the engine's sorting is modelled.  When the sorted array has no first
    element, [path.join] is given [undefined] and throws. *)

Definition isOrderFile (file : string) : bool :=
  JsString.startsWith "order-" file && JsString.endsWith ".json" file.

(** The text handed to [new Date] for a file name. *)
Definition sortKeyText (name : string) : string :=
  JsString.replaceEach (fun c => bool_decide (c = "-"%char)) ":"%char
    (JsString.replace ".json" EmptyString
       (JsString.replace "order-" EmptyString name)).

Definition findLatestOrderFile (join : string -> string -> string)
  (sort : list string -> list string) (jsclientDir : string)
  (files : list string) : Result (option string) :=
  let orderFiles := filter (fun file => isOrderFile file = true) files in
  if bool_decide (length orderFiles = 0%nat) then Ok None
  else
    match sort orderFiles with
    | first :: _ => Ok (Some (join jsclientDir first))
    | [] => Throw "The path argument must be of type string"
    end.

(** ** The time-remaining line of [main]

    [main] prints the formatted time only when [timeRemaining] is not the
    sentinel; [None] means that nothing is printed. *)

#[global] Instance NumOrStr_eq_dec : EqDecision NumOrStr.
Proof. solve_decision. Defined.

Definition main_timeRemainingLine (phaseInfo : PhaseInfo) : option string :=
  if bool_decide (phaseInfo.(timeRemaining) <> Str "No time limit")
  then Some (formatTimeRemaining phaseInfo.(timeRemaining))
  else None.

End QueryEscrowEnhanced.

(* ===================================================================== *)
(** * The basic query tool (unnamed/part_000) *)
(* ===================================================================== *)

Module QueryEscrow.

(** ** [determineEscrowPhase]

    The same cascade of comparisons; the returned object carries no
    [allowedActions].  The local [currentPhase], initialised to
    [PHASES.DEPLOYED] and overwritten in every branch, is never read. *)

Definition determineEscrowPhase (immutables : Immutables) (currentTime : Z)
  : BasicPhaseInfo :=
  let timelocks := immutables.(timelocks) in
  if currentTime <? timelocks.(srcWithdrawal) then
    {| basic_phase := FINALITY;
       basic_description :=
         "Contract is in finality period - no actions allowed";
       basic_timeRemaining := Num (timelocks.(srcWithdrawal) - currentTime);
       basic_nextPhase := PRIVATE_WITHDRAWAL;
       basic_nextPhaseTime := ISOString (timelocks.(srcWithdrawal) * 1000) |}
  else if currentTime <? timelocks.(srcPublicWithdrawal) then
    {| basic_phase := PRIVATE_WITHDRAWAL;
       basic_description :=
         "Private withdrawal period - maker can withdraw with secret";
       basic_timeRemaining :=
         Num (timelocks.(srcPublicWithdrawal) - currentTime);
       basic_nextPhase := PUBLIC_WITHDRAWAL;
       basic_nextPhaseTime :=
         ISOString (timelocks.(srcPublicWithdrawal) * 1000) |}
  else if currentTime <? timelocks.(srcCancellation) then
    {| basic_phase := PUBLIC_WITHDRAWAL;
       basic_description :=
         "Public withdrawal period - anyone can withdraw with secret";
       basic_timeRemaining :=
         Num (timelocks.(srcCancellation) - currentTime);
       basic_nextPhase := PRIVATE_CANCELLATION;
       basic_nextPhaseTime :=
         ISOString (timelocks.(srcCancellation) * 1000) |}
  else if currentTime <? timelocks.(srcPublicCancellation) then
    {| basic_phase := PRIVATE_CANCELLATION;
       basic_description :=
         "Private cancellation period - maker can cancel";
       basic_timeRemaining :=
         Num (timelocks.(srcPublicCancellation) - currentTime);
       basic_nextPhase := PUBLIC_CANCELLATION;
       basic_nextPhaseTime :=
         ISOString (timelocks.(srcPublicCancellation) * 1000) |}
  else
    {| basic_phase := PUBLIC_CANCELLATION;
       basic_description :=
         "Public cancellation period - anyone can cancel";
       basic_timeRemaining := Str "No time limit";
       basic_nextPhase := EXPIRED;
       basic_nextPhaseTime := Text "N/A" |}.

End QueryEscrow.

(* ===================================================================== *)
(** * jsclient/order-init.js *)
(* ===================================================================== *)

Module OrderInit.

(** The seven timelock properties written by the order scripts. *)
Record TimeLocks (A : Type) : Type := {
  srcWithdrawal : A;
  srcPublicWithdrawal : A;
  srcCancellation : A;
  srcPublicCancellation : A;
  dstWithdrawal : A;
  dstPublicWithdrawal : A;
  dstCancellation : A
}.
Arguments srcWithdrawal {A} _.
Arguments srcPublicWithdrawal {A} _.
Arguments srcCancellation {A} _.
Arguments srcPublicCancellation {A} _.
Arguments dstWithdrawal {A} _.
Arguments dstPublicWithdrawal {A} _.
Arguments dstCancellation {A} _.

(** The BigInt literals of the script: offsets in seconds.  They are
    written twice: as strings in [order.timeLocks], and as the argument of
    [Sdk.TimeLocks.new] in step 1; that constructor belongs to the external
    SDK and is not modelled. *)
Definition timeLocks_literals : TimeLocks Z :=
  {| srcWithdrawal := 10;
     srcPublicWithdrawal := 120;
     srcCancellation := 121;
     srcPublicCancellation := 122;
     dstWithdrawal := 10;
     dstPublicWithdrawal := 100;
     dstCancellation := 101 |}.

(** [order.timeLocks]: a plain object literal; every property is
    [<literal>n.toString ()].  No function is called on the values. *)
Definition order_timeLocks : TimeLocks string :=
  {| srcWithdrawal := toString 10;
     srcPublicWithdrawal := toString 120;
     srcCancellation := toString 121;
     srcPublicCancellation := toString 122;
     dstWithdrawal := toString 10;
     dstPublicWithdrawal := toString 100;
     dstCancellation := toString 101 |}.

(** [totalAmount = parseEther (making) + parseEther (safetyDeposit)],
    the two [parseEther] results being given in wei. *)
Definition totalAmount (makingAmountWei safetyDepositWei : Z) : Z :=
  makingAmountWei + safetyDepositWei.

(** The four source-chain properties, which are the ones the query tools
    read from a timelocks object. *)
Definition srcTimelocks (t : TimeLocks Z) : Timelocks :=
  {| Escrow.srcWithdrawal := t.(srcWithdrawal);
     Escrow.srcPublicWithdrawal := t.(srcPublicWithdrawal);
     Escrow.srcCancellation := t.(srcCancellation);
     Escrow.srcPublicCancellation := t.(srcPublicCancellation) |}.

(** The name of the order file: [isoNow] is [new Date ().toISOString ()];
    every ':' and '.' of it is replaced by '-'. *)
Definition filename (isoNow : string) : string :=
  let timestamp :=
    JsString.replaceEach
      (fun c => bool_decide (c = ":"%char) || bool_decide (c = "."%char))
      "-"%char isoNow in
  "order-" +:+ timestamp +:+ ".json".

End OrderInit.

(* ===================================================================== *)
(** * The order script with direct deployment (unnamed/part_001) *)
(* ===================================================================== *)

Module OrderInitDeploy.

(** ** Immutables and the deployment object *)

Record EscrowImmutables : Type := {
  orderHash : string;
  hashlock : string;
  maker : string;
  taker : string;
  token : string;
  amount : Z;
  safetyDeposit : Z;
  timelocks : OrderInit.TimeLocks Z
}.

(** [escrowImmutables.timelocks], an object literal built from
    [currentTime = Math.floor (Date.now () / 1000)]. *)
Definition escrowImmutables_timelocks (currentTime : Z)
  : OrderInit.TimeLocks Z :=
  {| OrderInit.srcWithdrawal := currentTime + 60;
     OrderInit.srcPublicWithdrawal := currentTime + 120;
     OrderInit.srcCancellation := currentTime + 300;
     OrderInit.srcPublicCancellation := currentTime + 600;
     OrderInit.dstWithdrawal := currentTime + 60;
     OrderInit.dstPublicWithdrawal := currentTime + 120;
     OrderInit.dstCancellation := currentTime + 300 |}.

(** [escrowImmutables]; the two hashes, the addresses and the two
    [parseEther] amounts (in wei) are computed outside the model. *)
Definition escrowImmutables (orderHash hashlock maker taker token : string)
  (amount safetyDeposit currentTime : Z) : EscrowImmutables :=
  {| orderHash := orderHash;
     hashlock := hashlock;
     maker := maker;
     taker := taker;
     token := token;
     amount := amount;
     safetyDeposit := safetyDeposit;
     timelocks := escrowImmutables_timelocks currentTime |}.

(** What a query tool sees when it is given these immutables. *)
Definition queryImmutables (i : EscrowImmutables) : Immutables :=
  {| Escrow.timelocks := OrderInit.srcTimelocks i.(timelocks) |}.

(** A property value of the [escrowDeployment] object. *)
Inductive Value : Type :=
| VStr (s : string)
| VNum (n : Z).

#[global] Instance Value_eq_dec : EqDecision Value.
Proof. solve_decision. Defined.

Definition rescueDelay : Z := 1800.

(** [escrowDeployment] as first written, and after the deployment
    succeeded.  Its [immutables] property aliases the constant
    [escrowImmutables], which the later steps read directly; it is not
    repeated in the map. *)
Definition escrowDeployment_prepared (deployer : string)
  : gmap string Value :=
  <["gasEstimate" := VStr "TBD"]>
  (<["deploymentCost" := VStr "TBD"]>
  (<["deploymentType" := VStr "direct"]>
  (<["deploymentStatus" := VStr "pending"]>
  (<["network" := VStr "Sepolia"]>
  (<["rescueDelay" := VNum rescueDelay]>
  (<["deployer" := VStr deployer]>
  (<["contractAddress" := VStr "TBD"]> ∅))))))).

Definition escrowDeployment_deployed (deployer contractAddress txHash : string)
  : gmap string Value :=
  <["deploymentStatus" := VStr "deployed"]>
  (<["deploymentTxHash" := VStr txHash]>
  (<["contractAddress" := VStr contractAddress]>
     (escrowDeployment_prepared deployer))).

(** ** The script state and its monad *)

Inductive Level : Type := log | error.

#[global] Instance Level_eq_dec : EqDecision Level.
Proof. solve_decision. Defined.

(** A request handed to [deployerWallet.sendTransaction]. *)
Record TxRequest : Type := {
  to : string;
  value : Z;
  gasLimit : Z;
  gasPrice : option Z
}.

(** What the script changes: the [escrowDeployment] object, the console
    (level and first argument of every call; leading line breaks are
    dropped) and the requests handed to the wallet, oldest first. *)
Record World : Type := {
  escrowDeployment : gmap string Value;
  console : list (Level * string);
  sent : list TxRequest
}.

Definition Script (A : Type) : Type := World -> Result A * World.

Definition ret {A} (a : A) : Script A := fun w => (Ok a, w).

Definition bind {A B} (c : Script A) (k : A -> Script B) : Script B :=
  fun w =>
    match c w with
    | (Ok a, w') => k a w'
    | (Throw m, w') => (Throw m, w')
    end.

(** [try { body } catch (e) { handler (e.message) }]: what [body] did to
    the state before it threw stays done. *)
Definition tryCatch {A} (body : Script A) (handler : string -> Script A)
  : Script A :=
  fun w =>
    match body w with
    | (Ok a, w') => (Ok a, w')
    | (Throw m, w') => handler m w'
    end.

(** [await p] for a promise whose outcome is [r]. *)
Definition await {A} (r : Result A) : Script A := fun w => (r, w).

Definition print (l : Level) (text : string) : Script unit :=
  fun w =>
    (Ok tt,
     {| escrowDeployment := w.(escrowDeployment);
        console := w.(console) ++ [(l, text)];
        sent := w.(sent) |}).

(** [escrowDeployment.prop = v] *)
Definition assign (prop : string) (v : Value) : Script unit :=
  fun w =>
    (Ok tt,
     {| escrowDeployment := <[prop := v]> w.(escrowDeployment);
        console := w.(console);
        sent := w.(sent) |}).

(** [escrowDeployment.prop]; [None] is [undefined]. *)
Definition read (prop : string) : Script (option Value) :=
  fun w => (Ok (w.(escrowDeployment) !! prop), w).

Declare Scope script_scope.
Delimit Scope script_scope with script.
Notation "'do' x <- c ; k" := (bind c (fun x => k))
  (at level 10, x name, c at level 100, k at level 200) : script_scope.
Notation "c ;; k" := (bind c (fun _ => k))
  (at level 100, k at level 200, right associativity) : script_scope.

(** ** The chain client seen by steps 3 and 4 *)

Record FeeData : Type := { fee_gasPrice : option Z }.

(** A transaction receipt; [status] is a number or [null]. *)
Record Receipt : Type := {
  status : option Z;
  blockNumber : Z;
  gasUsed : Z
}.

(** The response of [sendTransaction], with the outcome of its [wait ()]. *)
Record TransactionResponse : Type := {
  hash : string;
  wait : Result Receipt
}.

(** The answers of the chain during one funding attempt:
    [provider.getFeeData ()] and [deployerWallet.sendTransaction (req)]. *)
Record Chain : Type := {
  getFeeData : Result FeeData;
  sendTransaction : TxRequest -> Result TransactionResponse
}.

(** The reads of step 4: [contract.RESCUE_DELAY ()],
    [provider.getBalance (contractAddress)] and [contract.FACTORY ()]. *)
Record Reads : Type := {
  RESCUE_DELAY : Result Z;
  getBalance : Result Z;
  FACTORY : Result string
}.

(** What ethers v6 makes of a mined transaction: [wait ()] rejects with a
    CALL_EXCEPTION error when the receipt has status 0, so that on a chain
    whose receipts carry a status, as those of Sepolia do, every receipt
    that [wait ()] resolves to has status 1. *)
Definition ethers_v6 (chain : Chain) : Prop :=
  forall (req : TxRequest) (tx : TransactionResponse) (receipt : Receipt),
    chain.(sendTransaction) req = Ok tx ->
    tx.(wait) = Ok receipt ->
    receipt.(status) = Some 1.

(** [await deployerWallet.sendTransaction (req)]: the request is noted in
    [sent], then the chain answers. *)
Definition send (chain : Chain) (req : TxRequest)
  : Script TransactionResponse :=
  fun w =>
    (chain.(sendTransaction) req,
     {| escrowDeployment := w.(escrowDeployment);
        console := w.(console);
        sent := w.(sent) ++ [req] |}).

Local Open Scope script_scope.

(** ** Step 3: funding the deployed contract *)

Definition totalFundingAmount (escrowImmutables : EscrowImmutables) : Z :=
  escrowImmutables.(amount) + escrowImmutables.(safetyDeposit).

(** [deployerBalance] is the outcome of
    [provider.getBalance (deployerWallet.address)]; [first] and [retry] are
    the chain as it answers the first attempt and the alternative one. *)
Definition step3_funding (escrowImmutables : EscrowImmutables)
  (contractAddress : string) (deployerBalance : Result Z)
  (first retry : Chain) : Script unit :=
  print log "=== Step 3: Funding EscrowSrc Contract ===" ;;
  let totalFundingAmount := totalFundingAmount escrowImmutables in
  print log "Total funding amount:" ;;
  print log "- Making amount:" ;;
  print log "- Safety deposit:" ;;
  do deployerBalanceAfterDeployment <- await deployerBalance;
  print log "Deployer balance after deployment:" ;;
  if deployerBalanceAfterDeployment <? totalFundingAmount then
    print error "❌ Insufficient balance for funding!" ;;
    print error "Need:" ;;
    print error "Have:" ;;
    print log "Please fund the deployer wallet with additional Sepolia ETH"
  else
    print log "✅ Sufficient balance for funding" ;;
    tryCatch
      (do fee <- await first.(getFeeData);
       do fundingTx <-
         send first {| to := contractAddress;
                       value := totalFundingAmount;
                       gasLimit := 1000000;
                       gasPrice := fee.(fee_gasPrice) |};
       print log "Funding transaction hash:" ;;
       print log "Waiting for funding confirmation..." ;;
       do fundingReceipt <- await fundingTx.(wait);
       if bool_decide (fundingReceipt.(status) = Some 1) then
         print log "✅ Contract funded successfully!" ;;
         print log "Funding transaction confirmed in block:" ;;
         print log "Gas used:" ;;
         assign "fundingTxHash" (VStr fundingTx.(hash)) ;;
         assign "fundingAmount" (VStr (toString totalFundingAmount)) ;;
         assign "fundingStatus" (VStr "completed") ;;
         assign "gasUsed" (VStr (toString fundingReceipt.(gasUsed)))
       else
         print error "❌ Funding transaction failed!" ;;
         assign "fundingStatus" (VStr "failed") ;;
         assign "fundingError" (VStr "Transaction reverted"))
      (fun fundingError =>
         print error "❌ Error during funding:" ;;
         assign "fundingStatus" (VStr "failed") ;;
         assign "fundingError" (VStr fundingError) ;;
         print log
           "🔄 Trying alternative funding approach with higher gas limit..." ;;
         tryCatch
           (do fee <- await retry.(getFeeData);
            do alternativeFundingTx <-
              send retry {| to := contractAddress;
                            value := totalFundingAmount;
                            gasLimit := 2000000;
                            gasPrice := fee.(fee_gasPrice) |};
            print log "Alternative funding transaction hash:" ;;
            do alternativeReceipt <- await alternativeFundingTx.(wait);
            if bool_decide (alternativeReceipt.(status) = Some 1) then
              print log "✅ Alternative funding successful!" ;;
              assign "fundingTxHash" (VStr alternativeFundingTx.(hash)) ;;
              assign "fundingAmount" (VStr (toString totalFundingAmount)) ;;
              assign "fundingStatus" (VStr "completed") ;;
              assign "gasUsed" (VStr (toString alternativeReceipt.(gasUsed)))
            else
              print error "❌ Alternative funding also failed" ;;
              assign "fundingStatus" (VStr "failed") ;;
              assign "fundingError" (VStr "Both funding attempts failed"))
           (fun altError =>
              print error "❌ Alternative funding also failed:" ;;
              assign "fundingStatus" (VStr "failed") ;;
              assign "fundingError"
                (VStr ("Both attempts failed: " +:+ fundingError +:+ ", "
                         +:+ altError)))).

(** ** Step 4: verifying the deployment *)

Definition step4_verification (escrowImmutables : EscrowImmutables)
  (reads : Reads) : Script unit :=
  print log "=== Step 4: Verifying Contract Deployment ===" ;;
  let totalFundingAmount := totalFundingAmount escrowImmutables in
  tryCatch
    (do deployedRescueDelay <- await reads.(RESCUE_DELAY);
     print log "Rescue delay verification:" ;;
     (if bool_decide (toString deployedRescueDelay = toString rescueDelay)
      then print log "✅ Rescue delay verified correctly"
      else
        print error "❌ Rescue delay mismatch!" ;;
        print error "Expected:" ;;
        print error "Actual:") ;;
     do contractBalance <- await reads.(getBalance);
     print log "Contract balance:" ;;
     do fundingStatus <- read "fundingStatus";
     (if bool_decide (fundingStatus = Some (VStr "completed")) then
        if totalFundingAmount <=? contractBalance then
          print log "✅ Contract balance verified correctly"
        else
          print error "❌ Contract balance insufficient!" ;;
          print error "Expected at least:" ;;
          print error "Actual:"
      else
        print log "📝 Contract balance check completed (funding status:") ;;
     tryCatch
       (do factory <- await reads.(FACTORY);
        print log "Factory address:" ;;
        print log "✅ Contract deployment verification complete" ;;
        assign "verificationStatus" (VStr "verified") ;;
        assign "contractBalance" (VStr (toString contractBalance)) ;;
        assign "deployedRescueDelay" (VStr (toString deployedRescueDelay)))
       (fun error_message =>
          print error "❌ Contract verification failed:" ;;
          assign "verificationStatus" (VStr "failed") ;;
          assign "verificationError" (VStr error_message)))
    (fun error_message =>
       print error "❌ Error during contract verification:" ;;
       assign "verificationStatus" (VStr "failed") ;;
       assign "verificationError" (VStr error_message)).

(** ** Steps 3 and 4 inside the [try] block opened at step 2

    An error that leaves step 3 or step 4 (only the balance read of step 3
    can do that) reaches the [catch] of the deployment. *)
Definition afterDeployment (escrowImmutables : EscrowImmutables)
  (contractAddress : string) (deployerBalance : Result Z)
  (first retry : Chain) (reads : Reads) : Script unit :=
  tryCatch
    (step3_funding escrowImmutables contractAddress deployerBalance
       first retry ;;
     step4_verification escrowImmutables reads ;;
     print log "🎉 EscrowSrc deployment completed successfully!" ;;
     print log "Contract address:" ;;
     print log "Deployment tx:" ;;
     do fundingTxHash <- read "fundingTxHash";
     match fundingTxHash with
     | Some (VStr (String _ _)) => print log "Funding tx:"
     | Some (VNum n) => if n =? 0 then ret tt else print log "Funding tx:"
     | _ => ret tt
     end)
    (fun error_message =>
       print error "❌ Error during EscrowSrc deployment:" ;;
       assign "deploymentStatus" (VStr "failed") ;;
       assign "deploymentError" (VStr error_message)).

Local Close Scope script_scope.

(** The state in which step 3 starts: the deployment has succeeded, nothing
    has been printed or sent by steps 3 and 4 yet. *)
Definition deployedWorld (deployer contractAddress txHash : string) : World :=
  {| escrowDeployment :=
       escrowDeployment_deployed deployer contractAddress txHash;
     console := [];
     sent := [] |}.

End OrderInitDeploy.

(* ===================================================================== *)
(** * Vocabulary of the statements *)
(* ===================================================================== *)

Module Policy.

(** The boundaries in the order of the cascade:
    [t0 = srcWithdrawal], [t1 = srcPublicWithdrawal],
    [t2 = srcCancellation], [t3 = srcPublicCancellation]. *)
Definition ordered (t : Timelocks) : Prop :=
  t.(srcWithdrawal) <= t.(srcPublicWithdrawal)
  /\ t.(srcPublicWithdrawal) <= t.(srcCancellation)
  /\ t.(srcCancellation) <= t.(srcPublicCancellation).

Definition non_negative (t : Timelocks) : Prop :=
  0 <= t.(srcWithdrawal) /\ 0 <= t.(srcPublicWithdrawal)
  /\ 0 <= t.(srcCancellation) /\ 0 <= t.(srcPublicCancellation).

(** No boundary lies after [t3]. *)
Definition t3_is_last (t : Timelocks) : Prop :=
  t.(srcWithdrawal) <= t.(srcPublicCancellation)
  /\ t.(srcPublicWithdrawal) <= t.(srcPublicCancellation)
  /\ t.(srcCancellation) <= t.(srcPublicCancellation).

(** A schedule given by offsets from a deployment epoch, turned into the
    absolute boundaries that the tools compare the current time with
    ([deploymentEpoch + relativeBoundary]). *)
Definition absoluteTimelocks (deploymentEpoch : Z) (relative : Timelocks)
  : Timelocks :=
  {| srcWithdrawal := deploymentEpoch + relative.(srcWithdrawal);
     srcPublicWithdrawal := deploymentEpoch + relative.(srcPublicWithdrawal);
     srcCancellation := deploymentEpoch + relative.(srcCancellation);
     srcPublicCancellation :=
       deploymentEpoch + relative.(srcPublicCancellation) |}.

(** The immutables object that carries a given schedule. *)
Definition withTimelocks (t : Timelocks) : Immutables := {| timelocks := t |}.

(** Times that a [Date] can hold: at most 8.64e12 seconds on either side
    of the epoch. *)
Definition date_holds (seconds : Z) : Prop :=
  Z.abs seconds <= 8640000000000.

(** The five actor actions of the gating table. *)
Inductive Action : Type :=
| MakerWithdrawWithSecret
| TakerWithdrawWithSecret
| AnyoneWithdrawWithSecret
| MakerCancel
| AnyoneCancel.

(** The text by which the tools name each action. *)
Definition action_label (a : Action) : string :=
  match a with
  | MakerWithdrawWithSecret => "Maker withdraw with secret"
  | TakerWithdrawWithSecret => "Taker withdraw with secret"
  | AnyoneWithdrawWithSecret => "Anyone withdraw with secret"
  | MakerCancel => "Maker cancel"
  | AnyoneCancel => "Anyone cancel"
  end.

(** The gating table: the actions prescribed for each phase.  [DEPLOYED]
    and [EXPIRED] are never a current phase and have no row. *)
Definition prescribed (p : Phase) : list Action :=
  match p with
  | FINALITY => []
  | PRIVATE_WITHDRAWAL => [MakerWithdrawWithSecret; TakerWithdrawWithSecret]
  | PUBLIC_WITHDRAWAL => [AnyoneWithdrawWithSecret]
  | PRIVATE_CANCELLATION => [MakerCancel; AnyoneWithdrawWithSecret]
  | PUBLIC_CANCELLATION => [AnyoneCancel; AnyoneWithdrawWithSecret]
  | DEPLOYED | EXPIRED => []
  end.

(** The entry that the tools put in [allowedActions] during finality. *)
Definition finality_placeholder : string := "None - waiting for finality".

(** What one funding attempt asks of the chain and what it gets back: the
    request that reaches the wallet (none when the fee data cannot be read),
    and the hash and receipt of the mined transaction or the first error. *)
Definition attempt_request (chain : OrderInitDeploy.Chain)
  (contractAddress : string) (value gasLimit : Z)
  : list OrderInitDeploy.TxRequest :=
  match chain.(OrderInitDeploy.getFeeData) with
  | Ok fee =>
      [ {| OrderInitDeploy.to := contractAddress;
           OrderInitDeploy.value := value;
           OrderInitDeploy.gasLimit := gasLimit;
           OrderInitDeploy.gasPrice := fee.(OrderInitDeploy.fee_gasPrice) |} ]
  | Throw _ => []
  end.

Definition attempt_outcome (chain : OrderInitDeploy.Chain)
  (contractAddress : string) (value gasLimit : Z)
  : Result (string * OrderInitDeploy.Receipt) :=
  (do fee <- chain.(OrderInitDeploy.getFeeData);
   do tx <-
     chain.(OrderInitDeploy.sendTransaction)
       {| OrderInitDeploy.to := contractAddress;
          OrderInitDeploy.value := value;
          OrderInitDeploy.gasLimit := gasLimit;
          OrderInitDeploy.gasPrice := fee.(OrderInitDeploy.fee_gasPrice) |};
   do receipt <- tx.(OrderInitDeploy.wait);
   Ok (tx.(OrderInitDeploy.hash), receipt))%result.

(** The console line that reports a contract balance below the total. *)
Definition balance_insufficient : OrderInitDeploy.Level * string :=
  (OrderInitDeploy.error, "❌ Contract balance insufficient!").

(** The console line that announces the alternative funding attempt. *)
Definition retry_announcement : OrderInitDeploy.Level * string :=
  (OrderInitDeploy.log,
   "🔄 Trying alternative funding approach with higher gas limit...").

End Policy.

Import Policy.

(** Vocabulary for sequences of calls that may throw. *)
Module Outcome.

(** The message with which a call threw, if it did. *)
Definition message {A} (r : Result A) : option string :=
  match r with
  | Ok _ => None
  | Throw m => Some m
  end.

(** The message of the earliest call that threw, the calls being listed in
    the order in which they are made. *)
Fixpoint firstError (calls : list (option string)) : option string :=
  match calls with
  | [] => None
  | Some m :: _ => Some m
  | None :: rest => firstError rest
  end.

End Outcome.

(* ===================================================================== *)
(** * The phase engine *)
(* ===================================================================== *)

(** Case analysis along the cascade of comparisons. *)
Ltac cascade :=
  repeat match goal with
         | |- context [?a <? ?b] => destruct (Z.ltb_spec a b)
         end.

(** The enhanced tool computes the same object as the events tool. *)
Lemma enhanced_determineEscrowPhase (im : Immutables) (now : Z) :
  QueryEscrowEnhanced.determineEscrowPhase im now
  = QueryEscrowEvents.determineEscrowPhase im now.
Proof. reflexivity. Qed.

(** The basic tool computes the same object without [allowedActions]. *)
Lemma basic_determineEscrowPhase (im : Immutables) (now : Z) :
  let b := QueryEscrow.determineEscrowPhase im now in
  let e := QueryEscrowEvents.determineEscrowPhase im now in
  b.(basic_phase) = e.(phase)
  /\ b.(basic_description) = e.(description)
  /\ b.(basic_timeRemaining) = e.(timeRemaining)
  /\ b.(basic_nextPhase) = e.(nextPhase)
  /\ b.(basic_nextPhaseTime) = e.(nextPhaseTime).
Proof.
  unfold QueryEscrow.determineEscrowPhase,
    QueryEscrowEvents.determineEscrowPhase.
  cascade; cbn; repeat split.
Qed.

(** The current phase is the one of the first boundary, in the order of the
    cascade, that the current time is still below. *)
Lemma phase_cascade (im : Immutables) (now : Z) :
  let t := im.(timelocks) in
  (QueryEscrowEvents.determineEscrowPhase im now).(phase)
  = if now <? t.(srcWithdrawal) then FINALITY
    else if now <? t.(srcPublicWithdrawal) then PRIVATE_WITHDRAWAL
    else if now <? t.(srcCancellation) then PUBLIC_WITHDRAWAL
    else if now <? t.(srcPublicCancellation) then PRIVATE_CANCELLATION
    else PUBLIC_CANCELLATION.
Proof.
  unfold QueryEscrowEvents.determineEscrowPhase. cbn zeta.
  cascade; reflexivity.
Qed.

Lemma ordered_t3_is_last (t : Timelocks) : ordered t -> t3_is_last t.
Proof. unfold ordered, t3_is_last. lia. Qed.

Lemma ordered_absolute (epoch : Z) (rel : Timelocks) :
  ordered rel <-> ordered (absoluteTimelocks epoch rel).
Proof. unfold ordered, absoluteTimelocks; cbn. lia. Qed.

(** The deployment script builds its schedule from the offsets
    60, 120, 300 and 600 and the deployment clock. *)
Lemma deploy_timelocks_absolute (oh hl mk tk tok : string) (a sd epoch : Z) :
  OrderInitDeploy.queryImmutables
    (OrderInitDeploy.escrowImmutables oh hl mk tk tok a sd epoch)
  = withTimelocks
      (absoluteTimelocks epoch
         {| srcWithdrawal := 60;
            srcPublicWithdrawal := 120;
            srcCancellation := 300;
            srcPublicCancellation := 600 |}).
Proof. reflexivity. Qed.

(** The placeholder is none of the five action labels. *)
Lemma placeholder_is_no_action (a : Action) :
  action_label a <> finality_placeholder.
Proof. destruct a; discriminate. Qed.

(** ** Allowed actions *)

(** C1, as the claim states it, fails during finality: with the boundaries
    60, 120, 300, 600 and the clock at 0 the phase is [FINALITY] and the
    returned [allowedActions] is not the empty list prescribed by the
    table; it holds one entry. *)
Lemma finality_allowedActions_not_empty :
  let t := {| srcWithdrawal := 60;
              srcPublicWithdrawal := 120;
              srcCancellation := 300;
              srcPublicCancellation := 600 |} in
  let info := QueryEscrowEvents.determineEscrowPhase (withTimelocks t) 0 in
  ordered t
  /\ info.(phase) = FINALITY
  /\ info.(allowedActions) <> map action_label (prescribed info.(phase))
  /\ length info.(allowedActions) = 1%nat.
Proof.
  cbn. unfold ordered; cbn. repeat split; try lia. discriminate.
Qed.

(** C1 (amended).  For every schedule and every current time, in both
    query-escrow-events.js and query-escrow-enhanced.js, the returned
    [allowedActions] is determined by the computed phase: in the four
    phases after finality it lists exactly the labels of the prescribed
    actions (maker and taker withdraw with secret; anyone withdraw with
    secret; maker cancel and anyone withdraw with secret; anyone cancel and
    anyone withdraw with secret); in [FINALITY] it names no action but is
    not empty: it holds the single placeholder entry
    "None - waiting for finality". *)
Theorem allowedActions_by_phase (im : Immutables) (now : Z) :
  let info := QueryEscrowEvents.determineEscrowPhase im now in
  QueryEscrowEnhanced.determineEscrowPhase im now = info
  /\ match info.(phase) with
     | FINALITY =>
         info.(allowedActions) = [finality_placeholder]
         /\ (forall a : Action, action_label a ∉ info.(allowedActions))
     | PRIVATE_WITHDRAWAL | PUBLIC_WITHDRAWAL
     | PRIVATE_CANCELLATION | PUBLIC_CANCELLATION =>
         info.(allowedActions) = map action_label (prescribed info.(phase))
     | DEPLOYED | EXPIRED => False
     end.
Proof.
  split; [reflexivity|].
  unfold QueryEscrowEvents.determineEscrowPhase.
  cascade; cbn; try reflexivity.
  split; [reflexivity|].
  intros a Hin. apply list_elem_of_singleton in Hin.
  exact (placeholder_is_no_action a Hin).
Qed.

(** ** Time windows *)

(** C3.  For every schedule with t0 <= t1 <= t2 <= t3 the current phase is
    FINALITY before t0, PRIVATE_WITHDRAWAL in [t0, t1), PUBLIC_WITHDRAWAL in
    [t1, t2), PRIVATE_CANCELLATION in [t2, t3) and PUBLIC_CANCELLATION from
    t3 on; and with the offsets 60, 120, 300, 600 from epoch 1000 the clock
    1000 gives FINALITY with 60 seconds remaining, 1060 gives
    PRIVATE_WITHDRAWAL with 60 seconds remaining and 1700 gives
    PUBLIC_CANCELLATION. *)
Theorem phase_of_time_window :
  (forall (im : Immutables) (now : Z),
      ordered im.(timelocks) ->
      let t := im.(timelocks) in
      let p := (QueryEscrowEvents.determineEscrowPhase im now).(phase) in
      (now < t.(srcWithdrawal) -> p = FINALITY)
      /\ (t.(srcWithdrawal) <= now < t.(srcPublicWithdrawal) ->
          p = PRIVATE_WITHDRAWAL)
      /\ (t.(srcPublicWithdrawal) <= now < t.(srcCancellation) ->
          p = PUBLIC_WITHDRAWAL)
      /\ (t.(srcCancellation) <= now < t.(srcPublicCancellation) ->
          p = PRIVATE_CANCELLATION)
      /\ (t.(srcPublicCancellation) <= now -> p = PUBLIC_CANCELLATION))
  /\ (let im :=
        withTimelocks
          (absoluteTimelocks 1000
             {| srcWithdrawal := 60;
                srcPublicWithdrawal := 120;
                srcCancellation := 300;
                srcPublicCancellation := 600 |}) in
      let at_ now := QueryEscrowEvents.determineEscrowPhase im now in
      (at_ 1000).(phase) = FINALITY
      /\ (at_ 1000).(timeRemaining) = Num 60
      /\ (at_ 1060).(phase) = PRIVATE_WITHDRAWAL
      /\ (at_ 1060).(timeRemaining) = Num 60
      /\ (at_ 1700).(phase) = PUBLIC_CANCELLATION).
Proof.
  split.
  - intros im now Hord t p. subst p t.
    rewrite phase_cascade. unfold ordered in Hord. cbn zeta.
    cascade; repeat split; intros; try reflexivity; lia.
  - cbn. repeat split.
Qed.

Lemma phase_of_time_window_witness :
  let im :=
    withTimelocks {| srcWithdrawal := 1060;
                     srcPublicWithdrawal := 1120;
                     srcCancellation := 1300;
                     srcPublicCancellation := 1600 |} in
  ordered im.(timelocks)
  /\ (QueryEscrowEvents.determineEscrowPhase im 1200).(phase)
     = PUBLIC_WITHDRAWAL.
Proof.
  cbv zeta.
  assert (Hord : ordered
                   (withTimelocks
                      {| srcWithdrawal := 1060;
                         srcPublicWithdrawal := 1120;
                         srcCancellation := 1300;
                         srcPublicCancellation := 1600 |}).(timelocks))
    by (unfold ordered; cbn; lia).
  split; [exact Hord|].
  apply (proj1 phase_of_time_window _ 1200 Hord). cbn. lia.
Defined.

(** ** Boundaries *)

(** C4, as the claim states it, fails when two boundaries coincide: the
    offsets 0, 10, 10, 20 are ordered, and at the absolute boundary
    epoch + t1 = 1010 the phase is PRIVATE_CANCELLATION, not
    PUBLIC_WITHDRAWAL, because t2 starts at the same second. *)
Lemma boundary_t1_equal_t2 :
  let rel := {| srcWithdrawal := 0;
                srcPublicWithdrawal := 10;
                srcCancellation := 10;
                srcPublicCancellation := 20 |} in
  let im := withTimelocks (absoluteTimelocks 1000 rel) in
  ordered rel
  /\ (QueryEscrowEvents.determineEscrowPhase im
        (1000 + rel.(srcPublicWithdrawal))).(phase)
     <> PUBLIC_WITHDRAWAL
  /\ (QueryEscrowEvents.determineEscrowPhase im
        (1000 + rel.(srcPublicWithdrawal))).(phase)
     = PRIVATE_CANCELLATION
  /\ (QueryEscrow.determineEscrowPhase im
        (1000 + rel.(srcPublicWithdrawal))).(basic_phase)
     = PRIVATE_CANCELLATION.
Proof.
  cbn. unfold ordered; cbn. repeat split; try lia. discriminate.
Qed.

(** C4 (amended).  For every schedule with t0 <= t1 <= t2 <= t3 and every
    deployment epoch, in query-escrow-events.js and in the basic tool alike:
    at a current time equal to an absolute boundary the phase that this
    boundary ends is never returned; the phase that the boundary starts is
    returned whenever the next boundary is strictly later (and always at
    t3), so epoch + t1 yields PUBLIC_WITHDRAWAL when t1 < t2; when the next
    boundary coincides, a later phase is returned. *)
Theorem phase_at_boundary (epoch : Z) (rel : Timelocks) :
  ordered rel ->
  let im := withTimelocks (absoluteTimelocks epoch rel) in
  let at_ b :=
    (QueryEscrowEvents.determineEscrowPhase im (epoch + b)).(phase) in
  (forall b,
      (QueryEscrow.determineEscrowPhase im (epoch + b)).(basic_phase) = at_ b)
  /\ (rel.(srcWithdrawal) < rel.(srcPublicWithdrawal) ->
      at_ rel.(srcWithdrawal) = PRIVATE_WITHDRAWAL)
  /\ (rel.(srcPublicWithdrawal) < rel.(srcCancellation) ->
      at_ rel.(srcPublicWithdrawal) = PUBLIC_WITHDRAWAL)
  /\ (rel.(srcCancellation) < rel.(srcPublicCancellation) ->
      at_ rel.(srcCancellation) = PRIVATE_CANCELLATION)
  /\ at_ rel.(srcPublicCancellation) = PUBLIC_CANCELLATION
  /\ (phase_index PRIVATE_WITHDRAWAL
      <= phase_index (at_ rel.(srcWithdrawal)))%nat
  /\ (phase_index PUBLIC_WITHDRAWAL
      <= phase_index (at_ rel.(srcPublicWithdrawal)))%nat
  /\ (phase_index PRIVATE_CANCELLATION
      <= phase_index (at_ rel.(srcCancellation)))%nat.
Proof.
  intros Hord im at_. unfold ordered in Hord.
  split.
  { intros b. exact (proj1 (basic_determineEscrowPhase im (epoch + b))). }
  subst at_. cbv beta. rewrite !phase_cascade. subst im. cbn.
  cascade; cbn; repeat split; intros; try reflexivity; lia.
Qed.

Lemma phase_at_boundary_witness :
  let rel := {| srcWithdrawal := 60;
                srcPublicWithdrawal := 120;
                srcCancellation := 300;
                srcPublicCancellation := 600 |} in
  ordered rel
  /\ (QueryEscrowEvents.determineEscrowPhase
        (withTimelocks (absoluteTimelocks 1000 rel)) (1000 + 120)).(phase)
     = PUBLIC_WITHDRAWAL.
Proof.
  cbv zeta.
  assert (Hord : ordered {| srcWithdrawal := 60;
                            srcPublicWithdrawal := 120;
                            srcCancellation := 300;
                            srcPublicCancellation := 600 |})
    by (unfold ordered; cbn; lia).
  split; [exact Hord|].
  apply (phase_at_boundary 1000 _ Hord). cbn. lia.
Defined.

(** ** Monotonicity *)

(** C5.  For a fixed schedule (ordered or not) and times now1 <= now2, the
    phase at now2 is not before the phase at now1 in the order
    FINALITY < PRIVATE_WITHDRAWAL < PUBLIC_WITHDRAWAL < PRIVATE_CANCELLATION
    < PUBLIC_CANCELLATION, which is the declaration order of [PHASES]. *)
Theorem phase_monotone (im : Immutables) (now1 now2 : Z) :
  now1 <= now2 ->
  (phase_index (QueryEscrowEvents.determineEscrowPhase im now1).(phase)
   <= phase_index (QueryEscrowEvents.determineEscrowPhase im now2).(phase))%nat.
Proof.
  intros Hle. rewrite !phase_cascade. cbn zeta.
  cascade; cbn; lia.
Qed.

Lemma phase_monotone_witness :
  let im := withTimelocks {| srcWithdrawal := 1060;
                             srcPublicWithdrawal := 1120;
                             srcCancellation := 1300;
                             srcPublicCancellation := 1600 |} in
  1100 <= 1400
  /\ (phase_index (QueryEscrowEvents.determineEscrowPhase im 1100).(phase)
      <= phase_index
           (QueryEscrowEvents.determineEscrowPhase im 1400).(phase))%nat.
Proof.
  cbv zeta. split; [lia|]. apply phase_monotone. lia.
Defined.

(** ** The terminal phase *)

(** C6.  For every schedule whose last boundary is t3 (no boundary lies
    after it, as in every ordered schedule) and every current time at or past
    t3, the phase is PUBLIC_CANCELLATION and [timeRemaining] is the sentinel
    "No time limit"; and for all inputs the current phase is neither EXPIRED
    nor DEPLOYED, EXPIRED being the [nextPhase] of PUBLIC_CANCELLATION and
    of no other phase. *)
Theorem terminal_phase (im : Immutables) (now : Z) :
  let info := QueryEscrowEvents.determineEscrowPhase im now in
  (t3_is_last im.(timelocks) ->
   im.(timelocks).(srcPublicCancellation) <= now ->
   info.(phase) = PUBLIC_CANCELLATION
   /\ info.(timeRemaining) = Str "No time limit"
   /\ info.(nextPhaseTime) = Text "N/A")
  /\ info.(phase) <> EXPIRED
  /\ info.(phase) <> DEPLOYED
  /\ (info.(nextPhase) = EXPIRED <-> info.(phase) = PUBLIC_CANCELLATION).
Proof.
  unfold QueryEscrowEvents.determineEscrowPhase, t3_is_last.
  cascade; cbn; repeat split; intros; try discriminate; try reflexivity;
    lia.
Qed.

Lemma terminal_phase_witness :
  let im := withTimelocks {| srcWithdrawal := 1060;
                             srcPublicWithdrawal := 1120;
                             srcCancellation := 1300;
                             srcPublicCancellation := 1600 |} in
  t3_is_last im.(timelocks)
  /\ im.(timelocks).(srcPublicCancellation) <= 1700
  /\ (QueryEscrowEvents.determineEscrowPhase im 1700).(phase)
     = PUBLIC_CANCELLATION.
Proof.
  cbv zeta.
  assert (Hlast : t3_is_last
                    (withTimelocks
                       {| srcWithdrawal := 1060;
                          srcPublicWithdrawal := 1120;
                          srcCancellation := 1300;
                          srcPublicCancellation := 1600 |}).(timelocks))
    by (unfold t3_is_last; cbn; lia).
  assert (Hnow : (withTimelocks
                    {| srcWithdrawal := 1060;
                       srcPublicWithdrawal := 1120;
                       srcCancellation := 1300;
                       srcPublicCancellation := 1600 |}).(timelocks)
                   .(srcPublicCancellation) <= 1700)
    by (cbn; lia).
  split; [exact Hlast|]. split; [exact Hnow|].
  exact (proj1 (proj1 (terminal_phase _ 1700) Hlast Hnow)).
Defined.

(* ===================================================================== *)
(** * Formatting of the remaining time *)
(* ===================================================================== *)

(** ** Quotients of safe integers *)

Lemma nearest_cases (n d : Z) :
  Number.nearest n d = n / d
  \/ (Number.nearest n d = n / d + 1 /\ d <= 2 * (n mod d)).
Proof.
  unfold Number.nearest.
  destruct (Z.ltb_spec (2 * (n mod d)) d); [left; reflexivity|].
  destruct (Z.ltb_spec d (2 * (n mod d)));
    [right; split; [reflexivity|lia]|].
  destruct (Z.even (n / d));
    [left; reflexivity|right; split; [reflexivity|lia]].
Qed.

Lemma nearest_nonneg (n d : Z) :
  0 <= n -> 0 < d -> 0 <= Number.nearest n d.
Proof.
  intros Hn Hd. pose proof (Z.div_pos n d Hn Hd).
  destruct (nearest_cases n d) as [->|[-> _]]; lia.
Qed.

(** At the scale chosen by [Number.div] the quotient is at least 2 ^ 52:
    its significand has 53 bits. *)
Lemma div_normal (n b : Z) :
  0 < n -> 0 < b ->
  let t := 52 + Z.log2 b - Z.log2 n in
  let s :=
    if Number.num n t <? 2 ^ 52 * Number.den b t then t + 1 else t in
  2 ^ 52 * Number.den b s <= Number.num n s.
Proof.
  intros Hn Hb t s. subst s.
  destruct (Z.ltb_spec (Number.num n t) (2 ^ 52 * Number.den b t))
    as [Hlt|Hge]; [|exact Hge].
  destruct (Z.log2_spec n Hn) as [HnL _].
  destruct (Z.log2_spec b Hb) as [_ HbU].
  pose proof (Z.log2_nonneg n) as HL. pose proof (Z.log2_nonneg b) as HM.
  set (L := Z.log2 n) in *. set (M := Z.log2 b) in *.
  unfold Number.num, Number.den.
  destruct (Z.le_gt_cases 0 (t + 1)) as [Hs|Hs].
  - rewrite (Z.max_r 0 (t + 1)), (Z.max_l 0 (- (t + 1))) by lia.
    rewrite Z.pow_0_r, Z.mul_1_r.
    assert (H1 : 2 ^ 52 * b < 2 ^ 52 * 2 ^ Z.succ M)
      by (apply Z.mul_lt_mono_pos_l; lia).
    rewrite <- Z.pow_add_r in H1 by lia.
    assert (H2 : 2 ^ L * 2 ^ (t + 1) <= n * 2 ^ (t + 1))
      by (apply Z.mul_le_mono_nonneg_r; [apply Z.pow_nonneg|]; lia).
    rewrite <- Z.pow_add_r in H2 by lia.
    replace (L + (t + 1)) with (52 + Z.succ M) in H2 by (subst t; lia).
    lia.
  - rewrite (Z.max_l 0 (t + 1)), (Z.max_r 0 (- (t + 1))) by lia.
    rewrite Z.pow_0_r, Z.mul_1_r.
    assert (Hp : 0 < 2 ^ (- (t + 1))) by (apply Z.pow_pos_nonneg; lia).
    assert (H1 : b * 2 ^ (- (t + 1)) < 2 ^ Z.succ M * 2 ^ (- (t + 1)))
      by (apply Z.mul_lt_mono_pos_r; lia).
    rewrite <- Z.pow_add_r in H1 by lia.
    assert (H2 : 2 ^ 52 * (b * 2 ^ (- (t + 1)))
                 < 2 ^ 52 * 2 ^ (Z.succ M + - (t + 1)))
      by (apply Z.mul_lt_mono_pos_l; lia).
    rewrite <- Z.pow_add_r in H2 by lia.
    replace (52 + (Z.succ M + - (t + 1))) with L in H2 by (subst t; lia).
    lia.
Qed.

(** On the safe integers [Math.floor (a / b)] is the integer quotient:
    the rounding of the double quotient does not reach the next integer. *)
Lemma floor_div_safe (a b : Z) :
  0 <= a <= Number.MAX_SAFE_INTEGER -> 0 < b ->
  Number.floor (Number.div a b) = a / b.
Proof.
  intros [Ha Hsafe] Hb. unfold Number.MAX_SAFE_INTEGER in Hsafe.
  unfold Number.div.
  destruct (Z.eqb_spec a 0) as [->|Ha0]; [reflexivity|].
  assert (Hpos : 0 < a) by lia.
  rewrite (Z.abs_eq a Ha), (Z.sgn_pos a Hpos), Z.mul_1_l.
  pose proof (div_normal a b Hpos Hb) as Hnorm. cbv zeta in Hnorm.
  set (s := if Number.num a _ <? _ then _ else _) in *. clearbody s.
  unfold Number.num, Number.den in *.
  assert (Hs : 0 <= s).
  { destruct (Z.le_gt_cases 0 s) as [H|H]; [exact H|exfalso].
    rewrite (Z.max_l 0 s), (Z.max_r 0 (- s)), Z.pow_0_r, Z.mul_1_r
      in Hnorm by lia.
    assert (HQ : 2 ^ 1 <= 2 ^ (- s)) by (apply Z.pow_le_mono_r; lia).
    change (2 ^ 1) with 2 in HQ.
    change (2 ^ 52) with 4503599627370496 in Hnorm.
    assert (1 * 2 <= b * 2 ^ (- s))
      by (apply Z.mul_le_mono_nonneg; lia).
    lia. }
  rewrite (Z.max_r 0 s), (Z.max_l 0 (- s)), Z.pow_0_r, Z.mul_1_r in * by lia.
  assert (Hfloor : forall m,
             Number.floor {| Number.significand := m;
                             Number.exponent := - s |}
             = m / 2 ^ s).
  { intros m. unfold Number.floor; cbn [Number.significand Number.exponent].
    destruct (Z.leb_spec 0 (- s)) as [H|_].
    - assert (s = 0) as -> by lia. cbn. rewrite Z.div_1_r. lia.
    - rewrite Z.opp_involutive. reflexivity. }
  rewrite Hfloor. clear Hfloor.
  change (2 ^ 52) with 4503599627370496 in Hnorm.
  set (P := 2 ^ s) in *.
  assert (HP : 0 < P) by (apply Z.pow_pos_nonneg; lia).
  assert (Hq : a * P / b / P = a / b).
  { rewrite Z.div_div by lia. rewrite Z.div_mul_cancel_r by lia.
    reflexivity. }
  destruct (nearest_cases (a * P) b) as [->|[-> Hup]]; [exact Hq|].
  pose proof (Z.div_mod (a * P) b ltac:(lia)) as E1.
  pose proof (Z.mod_pos_bound (a * P) b Hb) as B1.
  pose proof (Z.div_mod a b ltac:(lia)) as E2.
  pose proof (Z.mod_pos_bound a b Hb) as B2.
  pose proof (Z.div_mod (a * P / b) P ltac:(lia)) as E3.
  pose proof (Z.mod_pos_bound (a * P / b) P HP) as B3.
  rewrite Hq in E3.
  set (k := a / b) in *. set (q := a * P / b) in *.
  set (r := (a * P) mod b) in *. set (r0 := q mod P) in *.
  set (ra := a mod b) in *.
  assert (Hb2 : b < 2 * P) by nia.
  assert (Hr0 : r0 + 1 < P).
  { destruct (Z.lt_ge_cases (r0 + 1) P) as [H|H]; [exact H|exfalso].
    assert (Hq1 : q + 1 = (k + 1) * P) by lia.
    assert (HD : 1 <= (k + 1) * b - a) by nia.
    assert (HDP : 2 * P * 1 <= 2 * P * ((k + 1) * b - a))
      by (apply Z.mul_le_mono_nonneg_l; lia).
    nia. }
  symmetry. apply Z.div_unique with (r := r0 + 1); [left; lia|lia].
Qed.

(** The floor of the quotient of a number that is not positive is not
    positive. *)
Lemma floor_div_nonpos (a b : Z) :
  a <= 0 -> 0 < b -> Number.floor (Number.div a b) <= 0.
Proof.
  intros Ha Hb. unfold Number.div.
  destruct (Z.eqb_spec a 0) as [->|Ha0]; [cbn; lia|].
  rewrite (Z.sgn_neg a) by lia.
  set (s := if Number.num _ _ <? _ then _ else _).
  assert (Hm : 0 <= Number.nearest (Number.num (Z.abs a) s)
                      (Number.den b s)).
  { apply nearest_nonneg; unfold Number.num, Number.den.
    - apply Z.mul_nonneg_nonneg; [lia|apply Z.pow_nonneg; lia].
    - apply Z.mul_pos_pos; [lia|apply Z.pow_pos_nonneg; lia]. }
  unfold Number.floor; cbn [Number.significand Number.exponent].
  destruct (Z.leb_spec 0 (- s)).
  - assert (0 <= 2 ^ (- s)) by (apply Z.pow_nonneg; lia). nia.
  - assert (0 < 2 ^ (- - s)) by (apply Z.pow_pos_nonneg; lia).
    apply Z.div_le_upper_bound; [lia|]. nia.
Qed.

(** The model of numbers on values known from JavaScript: 2 ^ 60 is printed
    with its 16 shortest digits and zeros, 1e21 and 2 ^ 70 in exponent form,
    and the quotient of 2 ^ 54 + 4 by 3 is rounded up to an integer. *)
Lemma number_examples :
  Number.toString (2 ^ 60) = "1152921504606847000"
  /\ Number.toString (10 ^ 21) = "1e+21"
  /\ Number.toString (2 ^ 70) = "1.1805916207174113e+21"
  /\ Number.toString (- 2 ^ 70) = "-1.1805916207174113e+21"
  /\ Number.floor (Number.div (2 ^ 54 + 4) 3) = 6004799503160663
  /\ (2 ^ 54 + 4) / 3 = 6004799503160662.
Proof. vm_compute. repeat split. Qed.

(** A safe integer is printed with all its digits. *)
Lemma toString_safe (x : Z) :
  Z.abs x <= Number.MAX_SAFE_INTEGER -> Number.toString x = toString x.
Proof.
  intros H. unfold Number.toString.
  destruct (Z.leb_spec (Z.abs x) Number.MAX_SAFE_INTEGER); [reflexivity|lia].
Qed.

(** ** The components *)

(** On a number, the printed text is made of the four components, leading
    zero components being left out. *)
Lemma formatTimeRemaining_Num (n : Z) :
  let p := QueryEscrowEvents.parts n in
  QueryEscrowEvents.formatTimeRemaining (Num n)
  = if 0 <? p.(QueryEscrowEvents.days) then
      Number.toString p.(QueryEscrowEvents.days) +:+ "d "
        +:+ Number.toString p.(QueryEscrowEvents.hours) +:+ "h "
        +:+ Number.toString p.(QueryEscrowEvents.minutes) +:+ "m "
        +:+ Number.toString p.(QueryEscrowEvents.secs) +:+ "s"
    else if 0 <? p.(QueryEscrowEvents.hours) then
      Number.toString p.(QueryEscrowEvents.hours) +:+ "h "
        +:+ Number.toString p.(QueryEscrowEvents.minutes) +:+ "m "
        +:+ Number.toString p.(QueryEscrowEvents.secs) +:+ "s"
    else if 0 <? p.(QueryEscrowEvents.minutes) then
      Number.toString p.(QueryEscrowEvents.minutes) +:+ "m "
        +:+ Number.toString p.(QueryEscrowEvents.secs) +:+ "s"
    else Number.toString p.(QueryEscrowEvents.secs) +:+ "s".
Proof. reflexivity. Qed.

(** The two copies of the function agree on every input. *)
Lemma enhanced_formatTimeRemaining (v : NumOrStr) :
  QueryEscrowEnhanced.formatTimeRemaining v
  = QueryEscrowEvents.formatTimeRemaining v.
Proof. destruct v; reflexivity. Qed.

(** On the safe integers that are not negative, the components are the
    integer quotients and the remainders are the moduli. *)
Lemma parts_safe (seconds : Z) :
  0 <= seconds <= Number.MAX_SAFE_INTEGER ->
  QueryEscrowEvents.parts seconds
  = {| QueryEscrowEvents.days := seconds / 86400;
       QueryEscrowEvents.hours := (seconds mod 86400) / 3600;
       QueryEscrowEvents.minutes := (seconds mod 3600) / 60;
       QueryEscrowEvents.secs := seconds mod 60 |}.
Proof.
  intros H. unfold QueryEscrowEvents.parts.
  rewrite !Z.rem_mod_nonneg by lia.
  pose proof (Z.mod_pos_bound seconds 86400 ltac:(lia)).
  pose proof (Z.mod_pos_bound seconds 3600 ltac:(lia)).
  unfold Number.MAX_SAFE_INTEGER in H.
  rewrite !floor_div_safe by (unfold Number.MAX_SAFE_INTEGER; lia).
  reflexivity.
Qed.

(** C10, as the claim states it, fails beyond the safe integers: the
    number 1519964874237628672 is a non-negative integer that a JavaScript
    number holds exactly (a significand of 53 bits times 2 ^ 8), its
    quotient by 86400 lies within a rounding error of the next integer, and
    [Math.floor] of the rounded quotient is one day too many: the
    components add up to the input plus 86400. *)
Lemma days_rounded_up_beyond_safe_integers :
  let seconds := 1519964874237628672 in
  let p := QueryEscrowEvents.parts seconds in
  0 <= seconds
  /\ seconds = 5937362789990737 * 2 ^ 8
  /\ 5937362789990737 <= Number.MAX_SAFE_INTEGER
  /\ p = {| QueryEscrowEvents.days := 17592186044417;
            QueryEscrowEvents.hours := 23;
            QueryEscrowEvents.minutes := 57;
            QueryEscrowEvents.secs := 52 |}
  /\ seconds / 86400 = 17592186044416
  /\ p.(QueryEscrowEvents.days) * 86400 + p.(QueryEscrowEvents.hours) * 3600
     + p.(QueryEscrowEvents.minutes) * 60 + p.(QueryEscrowEvents.secs)
     = seconds + 86400
  /\ p.(QueryEscrowEvents.days) * 86400 + p.(QueryEscrowEvents.hours) * 3600
     + p.(QueryEscrowEvents.minutes) * 60 + p.(QueryEscrowEvents.secs)
     <> seconds.
Proof.
  cbv zeta. repeat split; try (vm_compute; congruence).
Qed.

(** C10 (amended).  For every non-negative integer number of seconds up to
    Number.MAX_SAFE_INTEGER (2 ^ 53 - 1) the components computed by
    formatTimeRemaining satisfy
    days*86400 + hours*3600 + minutes*60 + secs = seconds with hours < 24,
    minutes < 60 and secs < 60 (none of them negative); and a string input,
    such as the sentinel "No time limit", is returned unchanged; in
    query-escrow-events.js and query-escrow-enhanced.js alike. *)
Theorem formatTimeRemaining_components :
  (forall seconds : Z,
      0 <= seconds <= Number.MAX_SAFE_INTEGER ->
      let p := QueryEscrowEvents.parts seconds in
      p.(QueryEscrowEvents.days) * 86400 + p.(QueryEscrowEvents.hours) * 3600
      + p.(QueryEscrowEvents.minutes) * 60 + p.(QueryEscrowEvents.secs)
      = seconds
      /\ 0 <= p.(QueryEscrowEvents.days)
      /\ 0 <= p.(QueryEscrowEvents.hours) < 24
      /\ 0 <= p.(QueryEscrowEvents.minutes) < 60
      /\ 0 <= p.(QueryEscrowEvents.secs) < 60)
  /\ (forall s : string,
         QueryEscrowEvents.formatTimeRemaining (Str s) = s
         /\ QueryEscrowEnhanced.formatTimeRemaining (Str s) = s)
  /\ (forall v : NumOrStr,
         QueryEscrowEnhanced.formatTimeRemaining v
         = QueryEscrowEvents.formatTimeRemaining v).
Proof.
  split; [|split].
  - intros seconds Hs p. subst p. rewrite (parts_safe seconds Hs). cbn.
    destruct Hs as [Hs _].
    pose proof (Z.div_mod seconds 86400 ltac:(lia)) as Hd.
    pose proof (Z.mod_pos_bound seconds 86400 ltac:(lia)) as Bd.
    pose proof (Z.div_mod (seconds mod 86400) 3600 ltac:(lia)) as Hh.
    pose proof (Z.mod_pos_bound (seconds mod 86400) 3600 ltac:(lia)) as Bh.
    pose proof (Z.div_mod seconds 3600 ltac:(lia)) as Hm.
    pose proof (Z.mod_pos_bound seconds 3600 ltac:(lia)) as Bm.
    pose proof (Z.div_mod (seconds mod 3600) 60 ltac:(lia)) as Hs'.
    pose proof (Z.mod_pos_bound (seconds mod 3600) 60 ltac:(lia)) as Bs'.
    pose proof (Z.div_mod seconds 60 ltac:(lia)) as H60.
    pose proof (Z.mod_pos_bound seconds 60 ltac:(lia)) as B60.
    assert (0 <= seconds / 86400) by (apply Z.div_pos; lia).
    assert (0 <= seconds / 3600) by (apply Z.div_pos; lia).
    assert (0 <= seconds / 60) by (apply Z.div_pos; lia).
    assert (0 <= (seconds mod 86400) / 3600) by (apply Z.div_pos; lia).
    assert (0 <= (seconds mod 3600) / 60) by (apply Z.div_pos; lia).
    repeat split; lia.
  - intros s. split; reflexivity.
  - exact enhanced_formatTimeRemaining.
Qed.

Lemma formatTimeRemaining_components_witness :
  0 <= 90061 <= Number.MAX_SAFE_INTEGER
  /\ QueryEscrowEvents.parts 90061
     = {| QueryEscrowEvents.days := 1;
          QueryEscrowEvents.hours := 1;
          QueryEscrowEvents.minutes := 1;
          QueryEscrowEvents.secs := 1 |}
  /\ (QueryEscrowEvents.parts 90061).(QueryEscrowEvents.days) * 86400
     + (QueryEscrowEvents.parts 90061).(QueryEscrowEvents.hours) * 3600
     + (QueryEscrowEvents.parts 90061).(QueryEscrowEvents.minutes) * 60
     + (QueryEscrowEvents.parts 90061).(QueryEscrowEvents.secs)
     = 90061.
Proof.
  assert (H : 0 <= 90061 <= Number.MAX_SAFE_INTEGER)
    by (unfold Number.MAX_SAFE_INTEGER; lia).
  split; [exact H|]. split; [reflexivity|].
  exact (proj1 (proj1 formatTimeRemaining_components 90061 H)).
Defined.

(* ===================================================================== *)
(** * Construction of timelock schedules *)
(* ===================================================================== *)

(** The strings stored in [order.timeLocks]. *)
Lemma order_timeLocks_text :
  OrderInit.order_timeLocks
  = {| OrderInit.srcWithdrawal := "10";
       OrderInit.srcPublicWithdrawal := "120";
       OrderInit.srcCancellation := "121";
       OrderInit.srcPublicCancellation := "122";
       OrderInit.dstWithdrawal := "10";
       OrderInit.dstPublicWithdrawal := "100";
       OrderInit.dstCancellation := "101" |}.
Proof. reflexivity. Qed.

Lemma toISOString_seconds (seconds : Z) :
  toISOString (seconds * 1000)
  = if Z.abs seconds <=? 8640000000000 then Ok (ISOString (seconds * 1000))
    else Throw "Invalid time value".
Proof.
  unfold toISOString, MAX_TIME_VALUE.
  destruct (Z.leb_spec (Z.abs (seconds * 1000)) 8640000000000000);
    destruct (Z.leb_spec (Z.abs seconds) 8640000000000);
    try reflexivity; lia.
Qed.

(** When the call of [determineEscrowPhase] returns, it returns the object
    of the cascade. *)
Lemma determineEscrowPhase_call_returns (im : Immutables) (now : Z)
  (info : PhaseInfo) :
  QueryEscrowEnhanced.determineEscrowPhase_call im now = Ok info ->
  info = QueryEscrowEnhanced.determineEscrowPhase im now.
Proof.
  unfold QueryEscrowEnhanced.determineEscrowPhase_call,
    QueryEscrowEnhanced.determineEscrowPhase.
  rewrite !toISOString_seconds.
  repeat match goal with
         | |- context [?a <=? ?b] => destruct (Z.leb_spec a b)
         end; cbn; cascade; cbn;
    rewrite ?toISOString_seconds;
    repeat match goal with
           | |- context [?a <=? ?b] => destruct (Z.leb_spec a b)
           end; cbn; congruence.
Qed.

(** The call returns for every current time and schedule that a [Date] can
    hold. *)
Lemma determineEscrowPhase_call_in_range (t : Timelocks) (now : Z) :
  date_holds now ->
  date_holds t.(srcWithdrawal) -> date_holds t.(srcPublicWithdrawal) ->
  date_holds t.(srcCancellation) -> date_holds t.(srcPublicCancellation) ->
  QueryEscrowEnhanced.determineEscrowPhase_call (withTimelocks t) now
  = Ok (QueryEscrowEnhanced.determineEscrowPhase (withTimelocks t) now).
Proof.
  unfold date_holds. intros Hnow H0 H1 H2 H3.
  unfold QueryEscrowEnhanced.determineEscrowPhase_call,
    QueryEscrowEnhanced.determineEscrowPhase. cbn.
  rewrite !toISOString_seconds.
  repeat match goal with
         | |- context [?a <=? ?b] => destruct (Z.leb_spec a b); [|lia]
         end.
  cbn. cascade; reflexivity.
Qed.

(** C7, as the claim states it, fails: the boundaries 600, 300, 120, -60
    are out of order and one is negative, yet the object that carries them
    is built, is taken from the order file by [main] of
    query-escrow-enhanced.js as it stands, is displayed, and reaches the
    phase computation, which returns FINALITY with 500 seconds remaining at
    time 100. *)
Lemma unordered_schedule_reaches_phase_engine :
  let t := {| srcWithdrawal := 600;
              srcPublicWithdrawal := 300;
              srcCancellation := 120;
              srcPublicCancellation := -60 |} in
  (~ ordered t)
  /\ (~ non_negative t)
  /\ exists info : PhaseInfo,
       QueryEscrowEnhanced.main_phase (Some (withTimelocks t))
         (fun _ => 0) 100 = Ok info
       /\ info = QueryEscrowEvents.determineEscrowPhase (withTimelocks t) 100
       /\ info.(phase) = FINALITY
       /\ info.(timeRemaining) = Num 500
       /\ info.(nextPhaseTime) = ISOString 600000.
Proof.
  cbn. unfold ordered, non_negative; cbn.
  split; [lia|]. split; [lia|].
  eexists. split; [reflexivity|]. repeat split.
Qed.

(** C7 (amended).  A timelock schedule is not validated before it reaches
    the phase computation: the query tool displays the schedule found in an
    order file and hands it to the phase computation as it is, neither
    rejected nor reordered.  Whenever its four boundaries and the current
    time are times that a Date can hold (at most 8.64e12 seconds from the
    epoch), ordered or not, negative or not, the phase computation returns
    one of the five phases, decided by the boundaries as they were given;
    the only error on the way is the RangeError of rendering a date beyond
    that range.  The schedules that the scripts build themselves are
    ordered: the deployment clock plus 60, 120, 300, 600 (non-negative
    whenever the clock is), the mock schedule of the query tool (its four
    clock readings not going backwards), and the literals 10, 120, 121, 122
    written into the order.  What the constructor of the external SDK,
    which is given the same literals, checks is not covered. *)
Theorem schedule_construction_unchecked :
  (forall (t : Timelocks) (dateNow : nat -> Z) (now : Z),
      let run :=
        QueryEscrowEnhanced.main_phase (Some (withTimelocks t)) dateNow now in
      (date_holds now /\ date_holds t.(srcWithdrawal)
       /\ date_holds t.(srcPublicWithdrawal)
       /\ date_holds t.(srcCancellation)
       /\ date_holds t.(srcPublicCancellation) ->
       exists info : PhaseInfo,
         run = Ok info
         /\ info.(phase)
            ∈ [FINALITY; PRIVATE_WITHDRAWAL; PUBLIC_WITHDRAWAL;
               PRIVATE_CANCELLATION; PUBLIC_CANCELLATION]
         /\ info.(phase)
            = if now <? t.(srcWithdrawal) then FINALITY
              else if now <? t.(srcPublicWithdrawal) then PRIVATE_WITHDRAWAL
              else if now <? t.(srcCancellation) then PUBLIC_WITHDRAWAL
              else if now <? t.(srcPublicCancellation)
                   then PRIVATE_CANCELLATION
              else PUBLIC_CANCELLATION)
      /\ (forall m : string,
             run = Throw m ->
             m = "Invalid time value"
             /\ ~ (date_holds now /\ date_holds t.(srcWithdrawal)
                   /\ date_holds t.(srcPublicWithdrawal)
                   /\ date_holds t.(srcCancellation)
                   /\ date_holds t.(srcPublicCancellation))))
  /\ (forall currentTime : Z,
         let t :=
           OrderInit.srcTimelocks
             (OrderInitDeploy.escrowImmutables_timelocks currentTime) in
         ordered t /\ (0 <= currentTime -> non_negative t))
  /\ (forall dateNow : nat -> Z,
         dateNow 0%nat <= dateNow 1%nat ->
         dateNow 1%nat <= dateNow 2%nat ->
         dateNow 2%nat <= dateNow 3%nat ->
         ordered (QueryEscrowEnhanced.mockImmutables dateNow).(timelocks))
  /\ ordered (OrderInit.srcTimelocks OrderInit.timeLocks_literals)
  /\ non_negative (OrderInit.srcTimelocks OrderInit.timeLocks_literals).
Proof.
  split; [|repeat split; unfold ordered, non_negative; cbn; lia].
  intros t dateNow now run.
  assert (Hin : date_holds now /\ date_holds t.(srcWithdrawal)
                /\ date_holds t.(srcPublicWithdrawal)
                /\ date_holds t.(srcCancellation)
                /\ date_holds t.(srcPublicCancellation) ->
                run
                = Ok (QueryEscrowEnhanced.determineEscrowPhase
                        (withTimelocks t) now)).
  { intros (Hnow & H0 & H1 & H2 & H3). subst run.
    unfold QueryEscrowEnhanced.main_phase,
      QueryEscrowEnhanced.displayTimelocks. cbn.
    rewrite !toISOString_seconds. unfold date_holds in *.
    repeat match goal with
           | |- context [?a <=? ?b] => destruct (Z.leb_spec a b); [|lia]
           end.
    cbn. apply determineEscrowPhase_call_in_range; assumption. }
  split.
  - intros Hr. rewrite (Hin Hr). eexists. split; [reflexivity|].
    rewrite enhanced_determineEscrowPhase, phase_cascade. cbn.
    split; [cascade; set_solver|reflexivity].
  - intros m Hm. split.
    + subst run. revert Hm.
      unfold QueryEscrowEnhanced.main_phase,
        QueryEscrowEnhanced.displayTimelocks,
        QueryEscrowEnhanced.determineEscrowPhase_call. cbn.
      rewrite !toISOString_seconds.
      repeat match goal with
             | |- context [?a <=? ?b] => destruct (Z.leb_spec a b)
             end; cbn; cascade; cbn; congruence.
    + intros Hr. rewrite (Hin Hr) in Hm. discriminate.
Qed.

Lemma schedule_construction_unchecked_witness :
  let t := {| srcWithdrawal := 600;
              srcPublicWithdrawal := 300;
              srcCancellation := 120;
              srcPublicCancellation := -60 |} in
  (date_holds 100 /\ date_holds t.(srcWithdrawal)
   /\ date_holds t.(srcPublicWithdrawal)
   /\ date_holds t.(srcCancellation)
   /\ date_holds t.(srcPublicCancellation))
  /\ exists info : PhaseInfo,
       QueryEscrowEnhanced.main_phase (Some (withTimelocks t))
         (fun _ => 0) 100 = Ok info
       /\ info.(phase)
          ∈ [FINALITY; PRIVATE_WITHDRAWAL; PUBLIC_WITHDRAWAL;
             PRIVATE_CANCELLATION; PUBLIC_CANCELLATION]
       /\ info.(phase) = FINALITY.
Proof.
  cbv zeta.
  assert (H : date_holds 100 /\ date_holds 600 /\ date_holds 300
              /\ date_holds 120 /\ date_holds (-60))
    by (unfold date_holds; cbn; lia).
  split; [exact H|].
  exact (proj1 (proj1 schedule_construction_unchecked
                  {| srcWithdrawal := 600;
                     srcPublicWithdrawal := 300;
                     srcCancellation := 120;
                     srcPublicCancellation := -60 |}
                  (fun _ => 0) 100) H).
Defined.

(* ===================================================================== *)
(** * Event query *)
(* ===================================================================== *)







(* ===================================================================== *)
(** * Funding and verification of the deployed escrow *)
(* ===================================================================== *)

Import OrderInitDeploy.

(** Unfolding of the script monad. *)
Ltac run_script :=
  unfold bind, tryCatch, await, print, assign, read, send, ret; cbn.

(** What step 3 does with the outcomes of its two attempts, whatever the
    chain client answers: a first attempt that throws is followed by the
    alternative one; a receipt whose status is not 1 marks the funding as
    failed. *)
Lemma funding_attempts (im : EscrowImmutables) (contractAddress : string)
  (balance : Z) (first retry : Chain) (w : World) :
  totalFundingAmount im <= balance ->
  let total := totalFundingAmount im in
  let w' :=
    snd (step3_funding im contractAddress (Ok balance) first retry w) in
  let fundingStatus := w'.(escrowDeployment) !! "fundingStatus" in
  let fundingError := w'.(escrowDeployment) !! "fundingError" in
  let fundingTxHash := w'.(escrowDeployment) !! "fundingTxHash" in
  match attempt_outcome first contractAddress total 1000000 with
  | Ok (h, r) =>
      w'.(sent)
      = w.(sent) ++ attempt_request first contractAddress total 1000000
      /\ if bool_decide (r.(status) = Some 1) then
           fundingStatus = Some (VStr "completed")
           /\ fundingTxHash = Some (VStr h)
         else
           fundingStatus = Some (VStr "failed")
           /\ fundingError = Some (VStr "Transaction reverted")
  | Throw e1 =>
      w'.(sent)
      = w.(sent) ++ attempt_request first contractAddress total 1000000
          ++ attempt_request retry contractAddress total 2000000
      /\ match attempt_outcome retry contractAddress total 2000000 with
         | Ok (h, r) =>
             if bool_decide (r.(status) = Some 1) then
               fundingStatus = Some (VStr "completed")
               /\ fundingTxHash = Some (VStr h)
             else fundingStatus = Some (VStr "failed")
         | Throw e2 =>
             fundingStatus = Some (VStr "failed")
             /\ fundingError
                = Some (VStr ("Both attempts failed: " +:+ e1 +:+ ", "
                                +:+ e2))
         end
  end.
Proof.
  intros Hbal total w' fundingStatus fundingError fundingTxHash.
  subst fundingStatus fundingError fundingTxHash w'.
  unfold step3_funding, attempt_outcome, attempt_request.
  fold total. run_script.
  destruct (Z.ltb_spec balance total) as [Hlt|_]; [lia|]. cbn.
  destruct (getFeeData first) as [fee1|e1]; cbn.
  - destruct (sendTransaction first _) as [tx1|e1]; cbn.
    + destruct (wait tx1) as [r1|e1]; cbn.
      * case_bool_decide; cbn; simplify_map_eq; auto.
      * destruct (getFeeData retry) as [fee2|e2]; cbn.
        -- destruct (sendTransaction retry _) as [tx2|e2]; cbn.
           ++ destruct (wait tx2) as [r2|e2]; cbn.
              ** case_bool_decide; cbn; simplify_map_eq;
                   rewrite <- ?app_assoc; auto.
              ** simplify_map_eq; rewrite <- ?app_assoc; auto.
           ++ simplify_map_eq; rewrite <- ?app_assoc; auto.
        -- simplify_map_eq; rewrite ?app_nil_r; auto.
    + destruct (getFeeData retry) as [fee2|e2]; cbn.
      * destruct (sendTransaction retry _) as [tx2|e2]; cbn.
        -- destruct (wait tx2) as [r2|e2]; cbn.
           ++ case_bool_decide; cbn; simplify_map_eq;
                rewrite <- ?app_assoc; auto.
           ++ simplify_map_eq; rewrite <- ?app_assoc; auto.
        -- simplify_map_eq; rewrite <- ?app_assoc; auto.
      * simplify_map_eq; rewrite ?app_nil_r; auto.
  - destruct (getFeeData retry) as [fee2|e2]; cbn.
    + destruct (sendTransaction retry _) as [tx2|e2]; cbn.
      * destruct (wait tx2) as [r2|e2]; cbn.
        -- case_bool_decide; cbn; simplify_map_eq; auto.
        -- simplify_map_eq; auto.
      * simplify_map_eq; auto.
    + simplify_map_eq; rewrite ?app_nil_r; auto.
Qed.

(** Through ethers v6 an attempt that returns has been mined with
    receipt status 1. *)
Lemma attempt_outcome_v6 (chain : Chain) (contractAddress : string)
  (value gasLimit : Z) (h : string) (r : Receipt) :
  ethers_v6 chain ->
  attempt_outcome chain contractAddress value gasLimit = Ok (h, r) ->
  r.(status) = Some 1.
Proof.
  intros Hv6. unfold attempt_outcome.
  destruct (getFeeData chain) as [fee|]; cbn; [|discriminate].
  destruct (sendTransaction chain _) as [tx|] eqn:Htx; cbn; [|discriminate].
  destruct (wait tx) as [receipt|] eqn:Hwait; cbn; [|discriminate].
  intros [= _ <-]. exact (Hv6 _ _ _ Htx Hwait).
Qed.

(** C8.  Funding goes through ethers v6, whose [wait ()] rejects for a
    reverted transaction, so that a funding failure is an error thrown by
    the attempt: by the fee data read, by the send or by the wait.  When
    the deployer balance covers the total, the first attempt is made with
    gas limit 1000000.  On a funding failure exactly one retry is
    performed, with the gas limit increased to 2000000; if that retry also
    fails, the funding status is failed and the recorded error carries both
    messages, the first attempt's and the retry's; if the retry succeeds,
    the funding status is completed.  Without a failure the status is
    completed after the single attempt. *)
Theorem funding_retry_policy (im : EscrowImmutables) (contractAddress : string)
  (balance : Z) (first retry : Chain) (w : World) :
  ethers_v6 first ->
  ethers_v6 retry ->
  totalFundingAmount im <= balance ->
  let total := totalFundingAmount im in
  let w' :=
    snd (step3_funding im contractAddress (Ok balance) first retry w) in
  let fundingStatus := w'.(escrowDeployment) !! "fundingStatus" in
  let fundingError := w'.(escrowDeployment) !! "fundingError" in
  let fundingTxHash := w'.(escrowDeployment) !! "fundingTxHash" in
  match attempt_outcome first contractAddress total 1000000 with
  | Ok (h, _) =>
      w'.(sent)
      = w.(sent) ++ attempt_request first contractAddress total 1000000
      /\ fundingStatus = Some (VStr "completed")
      /\ fundingTxHash = Some (VStr h)
  | Throw e1 =>
      w'.(sent)
      = w.(sent) ++ attempt_request first contractAddress total 1000000
          ++ attempt_request retry contractAddress total 2000000
      /\ (forall req,
            req ∈ attempt_request retry contractAddress total 2000000 ->
            req.(gasLimit) = 2000000)
      /\ match attempt_outcome retry contractAddress total 2000000 with
         | Ok (h, _) =>
             fundingStatus = Some (VStr "completed")
             /\ fundingTxHash = Some (VStr h)
         | Throw e2 =>
             fundingStatus = Some (VStr "failed")
             /\ fundingError
                = Some (VStr ("Both attempts failed: " +:+ e1 +:+ ", "
                                +:+ e2))
         end
  end.
Proof.
  intros Hfirst Hretry Hbal. cbv zeta.
  pose proof (funding_attempts im contractAddress balance first retry w Hbal)
    as H.
  cbv zeta in H.
  destruct (attempt_outcome first contractAddress (totalFundingAmount im)
              1000000) as [[h1 r1]|e1] eqn:E1.
  - rewrite (attempt_outcome_v6 _ _ _ _ _ _ Hfirst E1) in H.
    rewrite bool_decide_eq_true_2 in H by reflexivity. exact H.
  - destruct H as [Hsent H]. split; [exact Hsent|]. split.
    + intros req. unfold attempt_request.
      destruct (getFeeData retry); [|intros Hin; apply elem_of_nil in Hin;
                                      destruct Hin].
      intros Hin. apply list_elem_of_singleton in Hin. subst req. reflexivity.
    + destruct (attempt_outcome retry contractAddress (totalFundingAmount im)
                  2000000) as [[h2 r2]|e2] eqn:E2; [|exact H].
      rewrite (attempt_outcome_v6 _ _ _ _ _ _ Hretry E2) in H.
      rewrite bool_decide_eq_true_2 in H by reflexivity. exact H.
Qed.

Lemma funding_retry_policy_witness :
  let im := escrowImmutables "0x01" "0x02" "0xma" "0xta" "0x00"
              2000 1000 1000 in
  let chain :=
    {| getFeeData := Ok {| fee_gasPrice := Some 7 |};
       sendTransaction := fun req =>
         Ok {| hash := if req.(gasLimit) <? 1500000 then "0xf1" else "0xf2";
               wait :=
                 if req.(gasLimit) <? 1500000
                 then Throw "transaction execution reverted"
                 else Ok {| status := Some 1;
                            blockNumber := 6;
                            gasUsed := 30000 |} |} |} in
  let w' :=
    snd (step3_funding im "0xc0" (Ok 5000) chain chain
           (deployedWorld "0xde" "0xc0" "0xd1")) in
  ethers_v6 chain
  /\ totalFundingAmount im <= 5000
  /\ w'.(sent)
     = [ {| to := "0xc0"; value := 3000; gasLimit := 1000000;
            gasPrice := Some 7 |};
         {| to := "0xc0"; value := 3000; gasLimit := 2000000;
            gasPrice := Some 7 |} ]
  /\ (forall req,
        req ∈ attempt_request chain "0xc0" 3000 2000000 ->
        req.(gasLimit) = 2000000)
  /\ w'.(escrowDeployment) !! "fundingStatus" = Some (VStr "completed")
  /\ w'.(escrowDeployment) !! "fundingTxHash" = Some (VStr "0xf2").
Proof.
  cbv zeta.
  match goal with
  | |- ethers_v6 ?chain /\ _ =>
      assert (Hv6 : ethers_v6 chain)
  end.
  { intros req tx receipt Htx Hwait. injection Htx as <-. cbn in Hwait.
    destruct (gasLimit req <? 1500000); [discriminate|].
    injection Hwait as <-. reflexivity. }
  assert (Hbal : totalFundingAmount
                   (escrowImmutables "0x01" "0x02" "0xma" "0xta" "0x00"
                      2000 1000 1000) <= 5000)
    by (unfold totalFundingAmount; cbn; lia).
  split; [exact Hv6|]. split; [exact Hbal|].
  exact (funding_retry_policy _ "0xc0" 5000 _ _
           (deployedWorld "0xde" "0xc0" "0xd1") Hv6 Hv6 Hbal).
Defined.

(** C2, as the claim states it, fails: with amount 2000 and safety deposit
    1000, a funding that completed and a contract balance of 3001 (one more
    than the total), the balance check passes, nothing is reported as an
    error, and the record is marked verified. *)
Lemma overfunded_escrow_is_verified :
  let im := escrowImmutables "0x01" "0x02" "0xma" "0xta" "0x00"
              2000 1000 1000 in
  let chain :=
    {| getFeeData := Ok {| fee_gasPrice := Some 7 |};
       sendTransaction := fun _ =>
         Ok {| hash := "0xf1";
               wait := Ok {| status := Some 1;
                             blockNumber := 5;
                             gasUsed := 21000 |} |} |} in
  let reads := {| RESCUE_DELAY := Ok 1800;
                  getBalance := Ok 3001;
                  FACTORY := Ok "0xfa" |} in
  let funded :=
    snd (step3_funding im "0xc0" (Ok 5000) chain chain
           (deployedWorld "0xde" "0xc0" "0xd1")) in
  let w' := snd (step4_verification im reads funded) in
  3001 <> totalFundingAmount im
  /\ funded.(escrowDeployment) !! "fundingStatus" = Some (VStr "completed")
  /\ w'.(escrowDeployment) !! "verificationStatus" = Some (VStr "verified")
  /\ w'.(escrowDeployment) !! "verificationError" = None
  /\ w'.(escrowDeployment) !! "contractBalance" = Some (VStr "3001")
  /\ filter (fun line => line.1 = error) w'.(console) = [].
Proof.
  cbv zeta. split; [unfold totalFundingAmount; cbn; lia|].
  repeat split; vm_compute; reflexivity.
Qed.

(** What step 4 does once all three reads have answered. *)
Lemma step4_reads_answered (im : EscrowImmutables) (reads : Reads) (w : World)
  (delay balance : Z) (factory : string) :
  reads.(RESCUE_DELAY) = Ok delay ->
  reads.(getBalance) = Ok balance ->
  reads.(FACTORY) = Ok factory ->
  let w' := snd (step4_verification im reads w) in
  w'.(escrowDeployment)
  = <["deployedRescueDelay" := VStr (toString delay)]>
      (<["contractBalance" := VStr (toString balance)]>
         (<["verificationStatus" := VStr "verified"]> w.(escrowDeployment)))
  /\ w'.(sent) = w.(sent)
  /\ w'.(console)
     = w.(console)
       ++ [(log, "=== Step 4: Verifying Contract Deployment ===");
           (log, "Rescue delay verification:")]
       ++ (if bool_decide (toString delay = toString rescueDelay)
           then [(log, "✅ Rescue delay verified correctly")]
           else [(error, "❌ Rescue delay mismatch!");
                 (error, "Expected:"); (error, "Actual:")])
       ++ [(log, "Contract balance:")]
       ++ (if bool_decide (w.(escrowDeployment) !! "fundingStatus"
                           = Some (VStr "completed"))
           then
             if totalFundingAmount im <=? balance
             then [(log, "✅ Contract balance verified correctly")]
             else [balance_insufficient;
                   (error, "Expected at least:"); (error, "Actual:")]
           else
             [(log, "📝 Contract balance check completed (funding status:")])
       ++ [(log, "Factory address:");
           (log, "✅ Contract deployment verification complete")].
Proof.
  intros Hd Hb Hf w'. subst w'.
  unfold step4_verification. run_script.
  rewrite Hd; cbn.
  case_bool_decide; cbn; rewrite Hb; cbn; case_bool_decide; cbn;
    try destruct (Z.leb_spec (totalFundingAmount im) balance); cbn;
    rewrite Hf; cbn; repeat split;
    rewrite <- ?app_assoc; reflexivity.
Qed.

(** C2 (amended).  In the verification step, when the funding has completed
    and the three on-chain reads answer, the contract balance is compared
    with amount + safetyDeposit by "at least": a balance below the total
    (amount + safetyDeposit - 1, say) is reported on the console as
    "Contract balance insufficient!", and no other balance is; a balance
    equal to the total or above it, over-funding included, passes the check
    and the record is marked verified with that balance recorded.  The
    script has no StateMismatch failure. *)
Theorem verification_balance_check (im : EscrowImmutables) (reads : Reads)
  (w : World) (delay balance : Z) (factory : string) :
  w.(escrowDeployment) !! "fundingStatus" = Some (VStr "completed") ->
  reads.(RESCUE_DELAY) = Ok delay ->
  reads.(getBalance) = Ok balance ->
  reads.(FACTORY) = Ok factory ->
  balance_insufficient ∉ w.(console) ->
  let w' := snd (step4_verification im reads w) in
  (balance_insufficient ∈ w'.(console) <-> balance < totalFundingAmount im)
  /\ (totalFundingAmount im <= balance ->
      w'.(escrowDeployment) !! "verificationStatus" = Some (VStr "verified")
      /\ w'.(escrowDeployment) !! "contractBalance"
         = Some (VStr (toString balance))
      /\ (log, "✅ Contract balance verified correctly") ∈ w'.(console)).
Proof.
  intros Hfunded Hd Hb Hf Hfresh w'.
  destruct (step4_reads_answered im reads w delay balance factory Hd Hb Hf)
    as (Hdep & _ & Hconsole).
  fold w' in Hdep, Hconsole.
  rewrite Hfunded in Hconsole.
  rewrite (bool_decide_eq_true_2
             (Some (VStr "completed") = Some (VStr "completed")) eq_refl)
    in Hconsole.
  split.
  - rewrite Hconsole. unfold balance_insufficient in *.
    destruct (Z.leb_spec (totalFundingAmount im) balance);
      case_bool_decide;
      rewrite ?elem_of_app, ?elem_of_cons, ?elem_of_nil;
      intuition (try discriminate; try lia).
  - intros Hge. rewrite Hdep, Hconsole.
    destruct (Z.leb_spec (totalFundingAmount im) balance); [|lia].
    split; [|split].
    + simplify_map_eq; reflexivity.
    + simplify_map_eq; reflexivity.
    + rewrite !elem_of_app, !elem_of_cons. tauto.
Qed.

Lemma verification_balance_check_witness :
  let im := escrowImmutables "0x01" "0x02" "0xma" "0xta" "0x00"
              2000 1000 1000 in
  let reads := {| RESCUE_DELAY := Ok 1800;
                  getBalance := Ok 2999;
                  FACTORY := Ok "0xfa" |} in
  let w := {| escrowDeployment :=
                <["fundingStatus" := VStr "completed"]>
                  (escrowDeployment_deployed "0xde" "0xc0" "0xd1");
              console := [];
              sent := [] |} in
  w.(escrowDeployment) !! "fundingStatus" = Some (VStr "completed")
  /\ (balance_insufficient ∉ w.(console))
  /\ (balance_insufficient ∈ (snd (step4_verification im reads w)).(console)
      <-> 2999 < totalFundingAmount im).
Proof.
  cbv zeta.
  assert (Hfresh : balance_insufficient ∉ ([] : list (Level * string)))
    by apply not_elem_of_nil.
  split; [reflexivity|]. split; [exact Hfresh|].
  exact (proj1 (verification_balance_check
                  (escrowImmutables "0x01" "0x02" "0xma" "0xta" "0x00"
                     2000 1000 1000)
                  {| RESCUE_DELAY := Ok 1800;
                     getBalance := Ok 2999;
                     FACTORY := Ok "0xfa" |}
                  {| escrowDeployment :=
                       <["fundingStatus" := VStr "completed"]>
                         (escrowDeployment_deployed "0xde" "0xc0" "0xd1");
                     console := [];
                     sent := [] |}
                  1800 2999 "0xfa" eq_refl eq_refl eq_refl eq_refl Hfresh)).
Defined.

(* ===================================================================== *)
(** * Further properties of the phase engine *)
(* ===================================================================== *)

(** X1.  The [timeRemaining] returned by [determineEscrowPhase] is either a
    positive number of seconds that, added to the current time, gives
    exactly the instant printed as [nextPhaseTime], or the sentinel
    "No time limit" with [nextPhaseTime] "N/A"; the sentinel is returned in
    PUBLIC_CANCELLATION and in no other phase. *)
Theorem timeRemaining_counts_to_nextPhaseTime (im : Immutables) (now : Z) :
  let info := QueryEscrowEvents.determineEscrowPhase im now in
  match info.(timeRemaining) with
  | Num n =>
      0 < n
      /\ info.(nextPhaseTime) = ISOString ((now + n) * 1000)
      /\ info.(phase) <> PUBLIC_CANCELLATION
  | Str s =>
      s = "No time limit"
      /\ info.(nextPhaseTime) = Text "N/A"
      /\ info.(phase) = PUBLIC_CANCELLATION
  end.
Proof.
  unfold QueryEscrowEvents.determineEscrowPhase.
  cascade; cbn; repeat split; try discriminate; try lia; f_equal; lia.
Qed.

(** X2.  For any schedule, ordered or not: when [timeRemaining] is the number
    n, the phase is the same at every time from now up to, but not
    including, now + n, and at now + n it is [nextPhase] or a later phase;
    [nextPhase] is always the entry of [PHASES] that follows the current
    phase. *)
Theorem phase_lasts_timeRemaining (im : Immutables) (now n d : Z) :
  (QueryEscrowEvents.determineEscrowPhase im now).(timeRemaining) = Num n ->
  0 <= d < n ->
  let info := QueryEscrowEvents.determineEscrowPhase im now in
  (QueryEscrowEvents.determineEscrowPhase im (now + d)).(phase) = info.(phase)
  /\ phase_index info.(nextPhase) = S (phase_index info.(phase))
  /\ (phase_index info.(nextPhase)
      <= phase_index
           (QueryEscrowEvents.determineEscrowPhase im (now + n)).(phase))%nat.
Proof.
  intros Hn Hd info. subst info. revert Hn.
  rewrite !phase_cascade.
  unfold QueryEscrowEvents.determineEscrowPhase. cbn zeta.
  cascade; cbn; intros [= <-]; repeat split; try reflexivity; lia.
Qed.

Lemma phase_lasts_timeRemaining_witness :
  let im := withTimelocks {| srcWithdrawal := 1060;
                             srcPublicWithdrawal := 1120;
                             srcCancellation := 1300;
                             srcPublicCancellation := 1600 |} in
  (QueryEscrowEvents.determineEscrowPhase im 1100).(timeRemaining) = Num 20
  /\ 0 <= 19 < 20
  /\ (QueryEscrowEvents.determineEscrowPhase im (1100 + 19)).(phase)
     = PRIVATE_WITHDRAWAL
  /\ (phase_index PUBLIC_WITHDRAWAL
      <= phase_index
           (QueryEscrowEvents.determineEscrowPhase im (1100 + 20)).(phase))%nat.
Proof.
  cbv zeta.
  assert (Hd : 0 <= 19 < 20) by lia.
  split; [reflexivity|]. split; [exact Hd|].
  pose proof (phase_lasts_timeRemaining
                (withTimelocks {| srcWithdrawal := 1060;
                                  srcPublicWithdrawal := 1120;
                                  srcCancellation := 1300;
                                  srcPublicCancellation := 1600 |})
                1100 20 19 eq_refl Hd) as H.
  exact (conj (proj1 H) (proj2 (proj2 H))).
Defined.

(** X3.  Only differences of times matter: moving the four boundaries and
    the current time by the same number of seconds leaves the phase, the
    description, the time remaining, the next phase and the allowed actions
    unchanged, and moves the instant of [nextPhaseTime] by that many
    seconds. *)
Theorem determineEscrowPhase_shift (t : Timelocks) (now delta : Z) :
  let info := QueryEscrowEvents.determineEscrowPhase (withTimelocks t) now in
  let moved :=
    QueryEscrowEvents.determineEscrowPhase
      (withTimelocks (absoluteTimelocks delta t)) (delta + now) in
  moved.(phase) = info.(phase)
  /\ moved.(description) = info.(description)
  /\ moved.(timeRemaining) = info.(timeRemaining)
  /\ moved.(nextPhase) = info.(nextPhase)
  /\ moved.(allowedActions) = info.(allowedActions)
  /\ moved.(nextPhaseTime)
     = match info.(nextPhaseTime) with
       | ISOString ms => ISOString (ms + delta * 1000)
       | Text s => Text s
       end.
Proof.
  unfold QueryEscrowEvents.determineEscrowPhase, withTimelocks,
    absoluteTimelocks. cbn.
  cascade; cbn; try lia; repeat split; f_equal; lia.
Qed.

(** X4.  For a schedule with t0 <= t1 <= t2 <= t3 the phase is found by
    counting: its position after FINALITY in [PHASES] is the number of
    boundaries that the current time has reached. *)
Theorem phase_counts_reached_boundaries (im : Immutables) (now : Z) :
  ordered im.(Escrow.timelocks) ->
  let t := im.(Escrow.timelocks) in
  let reached (b : Z) : nat := if b <=? now then 1%nat else 0%nat in
  phase_index (QueryEscrowEvents.determineEscrowPhase im now).(phase)
  = (phase_index FINALITY
     + reached t.(srcWithdrawal) + reached t.(srcPublicWithdrawal)
     + reached t.(srcCancellation)
     + reached t.(srcPublicCancellation))%nat.
Proof.
  intros Hord t reached. subst reached t. unfold ordered in Hord.
  rewrite phase_cascade. cbn zeta.
  cascade;
    repeat match goal with
           | |- context [?a <=? ?b] => destruct (Z.leb_spec a b)
           end; cbn; lia.
Qed.

Lemma phase_counts_reached_boundaries_witness :
  let im := withTimelocks {| srcWithdrawal := 1060;
                             srcPublicWithdrawal := 1120;
                             srcCancellation := 1300;
                             srcPublicCancellation := 1600 |} in
  ordered im.(Escrow.timelocks)
  /\ phase_index (QueryEscrowEvents.determineEscrowPhase im 1200).(phase)
     = 3%nat.
Proof.
  cbv zeta.
  assert (Hord : ordered
                   (withTimelocks
                      {| srcWithdrawal := 1060;
                         srcPublicWithdrawal := 1120;
                         srcCancellation := 1300;
                         srcPublicCancellation := 1600 |}).(Escrow.timelocks))
    by (unfold ordered; cbn; lia).
  split; [exact Hord|].
  exact (phase_counts_reached_boundaries _ 1200 Hord).
Defined.

(* ===================================================================== *)
(** * Further properties of the time formatting *)
(* ===================================================================== *)

(** X5.  For a non-negative number of seconds inside the safe integers the
    text has one of four shapes, chosen by the size of the number: seconds
    only below one minute; minutes and seconds below one hour; hours,
    minutes and seconds below one day; days, hours, minutes and seconds
    from one day on; every component is printed with all its digits.  A
    component that is zero is still printed once a larger one is (3600
    gives "1h 0m 0s"). *)
Theorem formatTimeRemaining_by_range (seconds : Z) :
  0 <= seconds <= Number.MAX_SAFE_INTEGER ->
  QueryEscrowEvents.formatTimeRemaining (Num seconds)
  = if seconds <? 60 then
      toString seconds +:+ "s"
    else if seconds <? 3600 then
      toString (seconds / 60) +:+ "m " +:+ toString (seconds mod 60) +:+ "s"
    else if seconds <? 86400 then
      toString (seconds / 3600) +:+ "h "
        +:+ toString (seconds mod 3600 / 60) +:+ "m "
        +:+ toString (seconds mod 60) +:+ "s"
    else
      toString (seconds / 86400) +:+ "d "
        +:+ toString (seconds mod 86400 / 3600) +:+ "h "
        +:+ toString (seconds mod 3600 / 60) +:+ "m "
        +:+ toString (seconds mod 60) +:+ "s".
Proof.
  intros Hsafe. rewrite formatTimeRemaining_Num. cbv zeta.
  rewrite (parts_safe seconds Hsafe). cbn.
  destruct Hsafe as [Hs Hsafe].
  pose proof (Z.mod_pos_bound seconds 86400 ltac:(lia)).
  pose proof (Z.mod_pos_bound seconds 3600 ltac:(lia)).
  pose proof (Z.mod_pos_bound seconds 60 ltac:(lia)).
  assert (0 <= seconds / 86400 <= seconds)
    by (split; [apply Z.div_pos; lia|apply Z.div_le_upper_bound; lia]).
  assert (0 <= seconds mod 86400 / 3600 <= seconds mod 86400)
    by (split; [apply Z.div_pos; lia|apply Z.div_le_upper_bound; lia]).
  assert (0 <= seconds mod 3600 / 60 <= seconds mod 3600)
    by (split; [apply Z.div_pos; lia|apply Z.div_le_upper_bound; lia]).
  rewrite !toString_safe by (unfold Number.MAX_SAFE_INTEGER in *; lia).
  destruct (Z.ltb_spec seconds 60) as [H60|H60].
  { rewrite (Z.div_small seconds 86400), (Z.mod_small seconds 86400),
      (Z.div_small seconds 3600), (Z.mod_small seconds 3600),
      (Z.div_small seconds 60), (Z.mod_small seconds 60) by lia.
    reflexivity. }
  destruct (Z.ltb_spec seconds 3600) as [H3600|H3600].
  { rewrite (Z.div_small seconds 86400), (Z.mod_small seconds 86400),
      (Z.div_small seconds 3600), (Z.mod_small seconds 3600) by lia.
    cbn.
    assert (0 < seconds / 60) by (apply Z.div_str_pos; lia).
    destruct (Z.ltb_spec 0 (seconds / 60)); [reflexivity|lia]. }
  destruct (Z.ltb_spec seconds 86400) as [H86400|H86400].
  { rewrite (Z.div_small seconds 86400), (Z.mod_small seconds 86400) by lia.
    cbn.
    assert (0 < seconds / 3600) by (apply Z.div_str_pos; lia).
    destruct (Z.ltb_spec 0 (seconds / 3600)); [reflexivity|lia]. }
  assert (0 < seconds / 86400) by (apply Z.div_str_pos; lia).
  destruct (Z.ltb_spec 0 (seconds / 86400)); [reflexivity|lia].
Qed.

Lemma formatTimeRemaining_by_range_witness :
  0 <= 3600 <= Number.MAX_SAFE_INTEGER
  /\ QueryEscrowEvents.formatTimeRemaining (Num 3600) = "1h 0m 0s".
Proof.
  assert (H : 0 <= 3600 <= Number.MAX_SAFE_INTEGER)
    by (unfold Number.MAX_SAFE_INTEGER; lia).
  split; [exact H|].
  exact (formatTimeRemaining_by_range 3600 H).
Defined.

(** Beyond the safe integers the text is no longer made of the digits of
    the integer quotients: the number that prints as 8.64e+25 gives a days
    component of 1e21, which is printed in exponent form, and a remainder
    of 21 hours, 24 minutes and 16 seconds. *)
Lemma formatTimeRemaining_exponent_form :
  QueryEscrowEvents.formatTimeRemaining (Num 86400000000000000268435456)
  = "1e+21d 21h 24m 16s".
Proof. vm_compute. reflexivity. Qed.

(** X6.  For a negative number of seconds no component is positive, so only
    the seconds are printed, and they are the truncating remainder by 60:
    minutes, hours and days are lost (-3700 gives "-40s"). *)
Theorem formatTimeRemaining_negative (seconds : Z) :
  seconds < 0 ->
  QueryEscrowEvents.formatTimeRemaining (Num seconds)
  = toString (Z.rem seconds 60) +:+ "s".
Proof.
  intros Hs. rewrite formatTimeRemaining_Num. cbv zeta.
  unfold QueryEscrowEvents.parts.
  cbn [QueryEscrowEvents.days QueryEscrowEvents.hours
         QueryEscrowEvents.minutes QueryEscrowEvents.secs].
  assert (Z.rem seconds 86400 <= 0 /\ Z.rem seconds 3600 <= 0
          /\ -60 < Z.rem seconds 60 <= 0) as (H86400 & H3600 & H60)
    by (Z.to_euclidean_division_equations; lia).
  pose proof (floor_div_nonpos seconds 86400 ltac:(lia) ltac:(lia)).
  pose proof (floor_div_nonpos (Z.rem seconds 86400) 3600 H86400 ltac:(lia)).
  pose proof (floor_div_nonpos (Z.rem seconds 3600) 60 H3600 ltac:(lia)).
  destruct (Z.ltb_spec 0 (Number.floor (Number.div seconds 86400))); [lia|].
  destruct (Z.ltb_spec 0
              (Number.floor (Number.div (Z.rem seconds 86400) 3600)));
    [lia|].
  destruct (Z.ltb_spec 0 (Number.floor (Number.div (Z.rem seconds 3600) 60)));
    [lia|].
  rewrite toString_safe by (unfold Number.MAX_SAFE_INTEGER; lia).
  reflexivity.
Qed.

Lemma formatTimeRemaining_negative_witness :
  -3700 < 0
  /\ QueryEscrowEvents.formatTimeRemaining (Num (-3700)) = "-40s".
Proof.
  assert (H : -3700 < 0) by lia.
  split; [exact H|].
  exact (formatTimeRemaining_negative (-3700) H).
Defined.

(** X7.  [main] of the query tool prints the time-remaining line exactly in
    the four phases before PUBLIC_CANCELLATION, and what it formats there is
    a positive number of seconds: the sentinel and the negative case of
    [formatTimeRemaining] never reach the output. *)
Theorem main_timeRemainingLine_by_phase (im : Immutables) (now : Z) :
  let info := QueryEscrowEnhanced.determineEscrowPhase im now in
  match QueryEscrowEnhanced.main_timeRemainingLine info with
  | None => info.(phase) = PUBLIC_CANCELLATION
  | Some text =>
      info.(phase) <> PUBLIC_CANCELLATION
      /\ exists n : Z,
           0 < n
           /\ info.(timeRemaining) = Num n
           /\ text = QueryEscrowEnhanced.formatTimeRemaining (Num n)
  end.
Proof.
  unfold QueryEscrowEnhanced.main_timeRemainingLine,
    QueryEscrowEnhanced.determineEscrowPhase.
  cascade; cbn;
    try (split; [discriminate|]; eexists; repeat split; lia).
  reflexivity.
Qed.

(* ===================================================================== *)
(** * Further properties of the chain queries *)
(* ===================================================================== *)

(** Decimal texts of distinct integers are distinct. *)
Lemma toString_inj (n m : Z) : toString n = toString m -> n = m.
Proof.
  unfold toString. intros H.
  assert (Hint : forall z : Z,
             NilZero.int_of_string (NilZero.string_of_int (Z.to_int z))
             = Some (Z.to_int z)).
  { intros z. apply NilZero.isi.
    - destruct z; cbn; try discriminate.
      intros [= Hp]. exact (DecimalPos.Unsigned.to_uint_nonnil _ Hp).
    - destruct z; cbn; try discriminate.
      intros [= Hp]. exact (DecimalPos.Unsigned.to_uint_nonnil _ Hp). }
  pose proof (Hint n) as Hn. rewrite H, Hint in Hn.
  injection Hn as Hn.
  rewrite <- (DecimalZ.of_to n), <- (DecimalZ.of_to m), Hn. reflexivity.
Qed.

(** A loop that returns has run its body with success on every element,
    in order. *)
Lemma forOf_Ok_inv {A B} (f : A -> Result B) (xs : list A) (ys : list B) :
  forOf f xs = Ok ys -> Forall2 (fun x y => f x = Ok y) xs ys.
Proof.
  revert ys. induction xs as [|x xs IH]; cbn; intros ys.
  - intros [= <-]. constructor.
  - destruct (f x) as [y|m] eqn:Hx; cbn; [|discriminate].
    destruct (forOf f xs) as [ys'|m] eqn:Hxs; cbn; [|discriminate].
    intros [= <-]. constructor; [exact Hx|]. apply IH. reflexivity.
Qed.

Lemma Forall2_body_Ok {A B} (f : A -> Result B) (xs : list A) (ys : list B) :
  Forall2 (fun x y => f x = Ok y) xs ys ->
  forall x, x ∈ xs -> exists y, f x = Ok y.
Proof.
  induction 1 as [|x y xs ys Hx _ IH]; intros z Hz.
  - apply elem_of_nil in Hz. destruct Hz.
  - apply elem_of_cons in Hz as [->|Hz]; [eauto|exact (IH z Hz)].
Qed.

Lemma Forall2_map_eq {A B C} (f : A -> Result B) (g : B -> C) (h : A -> C)
  (xs : list A) (ys : list B) :
  Forall2 (fun x y => f x = Ok y) xs ys ->
  (forall x y, f x = Ok y -> g y = h x) ->
  map g ys = map h xs.
Proof.
  intros HF Hgh. induction HF as [|x y xs ys Hx _ IH]; cbn; [reflexivity|].
  rewrite (Hgh x y Hx), IH. reflexivity.
Qed.

(** The body of a loop of [queryContractEvents] on the log [e]: the cases
    in which it throws are closed, the one in which it returns is left. *)
Ltac body_cases provider e :=
  let Hb := fresh "Hb" in
  cbn;
  destruct (QueryEscrowEvents.getBlock provider
              e.(QueryEscrowEvents.log_blockNumber)) as [[?|]|] eqn:Hb;
  unfold QueryEscrowEvents.event_args;
  destruct (QueryEscrowEvents.log_args e);
  cbn; try discriminate.

(** X8.  When [queryContractEvents] returns, every provider call it made
    had answered: the block number n, the three filters on the window from
    max (0, n - 100) to n, and the block of every log found.  Nothing is
    dropped or reordered: the three lists carry the transaction hashes of
    the logs found, in the order found, and [totalEvents] is the number of
    entries returned. *)
Theorem queryContractEvents_returns_every_log
  (provider : QueryEscrowEvents.Provider)
  (r : QueryEscrowEvents.ContractEvents) :
  QueryEscrowEvents.queryContractEvents provider = Ok r ->
  exists (n : Z) (ws cs rs : list QueryEscrowEvents.EventLog),
    provider.(QueryEscrowEvents.getBlockNumber) = Ok n
    /\ provider.(QueryEscrowEvents.queryFilter) QueryEscrowEvents.Withdrawal
         (Z.max 0 (n - 100)) n = Ok ws
    /\ provider.(QueryEscrowEvents.queryFilter)
         QueryEscrowEvents.EscrowCancelled (Z.max 0 (n - 100)) n = Ok cs
    /\ provider.(QueryEscrowEvents.queryFilter)
         QueryEscrowEvents.FundsRescued (Z.max 0 (n - 100)) n = Ok rs
    /\ (forall e, e ∈ ws ++ cs ++ rs ->
          exists b,
            provider.(QueryEscrowEvents.getBlock)
              e.(QueryEscrowEvents.log_blockNumber) = Ok (Some b))
    /\ map QueryEscrowEvents.w_transactionHash r.(QueryEscrowEvents.withdrawals)
       = map QueryEscrowEvents.log_transactionHash ws
    /\ map QueryEscrowEvents.c_transactionHash
         r.(QueryEscrowEvents.cancellations)
       = map QueryEscrowEvents.log_transactionHash cs
    /\ map QueryEscrowEvents.r_transactionHash r.(QueryEscrowEvents.rescues)
       = map QueryEscrowEvents.log_transactionHash rs
    /\ r.(QueryEscrowEvents.totalEvents)
       = Z.of_nat (length r.(QueryEscrowEvents.withdrawals)
                   + length r.(QueryEscrowEvents.cancellations)
                   + length r.(QueryEscrowEvents.rescues)).
Proof.
  unfold QueryEscrowEvents.queryContractEvents.
  destruct (QueryEscrowEvents.getBlockNumber provider) as [n|] eqn:Hn;
    cbn; [|discriminate].
  destruct (QueryEscrowEvents.queryFilter provider
              QueryEscrowEvents.Withdrawal _ n) as [ws|] eqn:Hw;
    cbn; [|discriminate].
  destruct (QueryEscrowEvents.queryFilter provider
              QueryEscrowEvents.EscrowCancelled _ n) as [cs|] eqn:Hc;
    cbn; [|discriminate].
  destruct (QueryEscrowEvents.queryFilter provider
              QueryEscrowEvents.FundsRescued _ n) as [rs|] eqn:Hr;
    cbn; [|discriminate].
  destruct (forOf _ ws) as [ws'|] eqn:Hws; cbn; [|discriminate].
  destruct (forOf _ cs) as [cs'|] eqn:Hcs; cbn; [|discriminate].
  destruct (forOf _ rs) as [rs'|] eqn:Hrs; cbn; [|discriminate].
  intros [= <-]. cbn.
  apply forOf_Ok_inv in Hws, Hcs, Hrs.
  exists n, ws, cs, rs.
  split; [reflexivity|]. split; [exact Hw|].
  split; [exact Hc|]. split; [exact Hr|].
  split; [|split; [|split; [|split]]].
  - intros e. rewrite !elem_of_app. intros [He|[He|He]].
    + destruct (Forall2_body_Ok _ _ _ Hws e He) as [y Hy].
      revert Hy. body_cases provider e; eauto.
    + destruct (Forall2_body_Ok _ _ _ Hcs e He) as [y Hy].
      revert Hy. body_cases provider e; eauto.
    + destruct (Forall2_body_Ok _ _ _ Hrs e He) as [y Hy].
      revert Hy. body_cases provider e; eauto.
  - apply (Forall2_map_eq _ _ _ _ _ Hws). intros e y.
    body_cases provider e; intros [= <-]; reflexivity.
  - apply (Forall2_map_eq _ _ _ _ _ Hcs). intros e y.
    body_cases provider e; intros [= <-]; reflexivity.
  - apply (Forall2_map_eq _ _ _ _ _ Hrs). intros e y.
    body_cases provider e; intros [= <-]; reflexivity.
  - rewrite <- (Forall2_length _ _ _ Hws), <- (Forall2_length _ _ _ Hcs),
      <- (Forall2_length _ _ _ Hrs). lia.
Qed.

Lemma queryContractEvents_returns_every_log_witness :
  let provider :=
    {| QueryEscrowEvents.getBlockNumber := Ok 40;
       QueryEscrowEvents.queryFilter := fun name _ _ =>
         match name with
         | QueryEscrowEvents.EscrowCancelled =>
             Ok [ {| QueryEscrowEvents.log_args :=
                       Some QueryEscrowEvents.EscrowCancelledArgs;
                     QueryEscrowEvents.log_blockNumber := 35;
                     QueryEscrowEvents.log_transactionHash := "0xbbb2" |} ]
         | _ => Ok []
         end;
       QueryEscrowEvents.getBlock := fun n =>
         Ok (Some {| QueryEscrowEvents.block_number := n;
                     QueryEscrowEvents.block_hash := "0xb10c";
                     QueryEscrowEvents.block_timestamp := 1000 + n |}) |} in
  let r :=
    {| QueryEscrowEvents.withdrawals := [];
       QueryEscrowEvents.cancellations :=
         [ {| QueryEscrowEvents.c_blockNumber := 35;
              QueryEscrowEvents.c_timestamp := 1035;
              QueryEscrowEvents.c_transactionHash := "0xbbb2" |} ];
       QueryEscrowEvents.rescues := [];
       QueryEscrowEvents.totalEvents := 1 |} in
  QueryEscrowEvents.queryContractEvents provider = Ok r
  /\ r.(QueryEscrowEvents.totalEvents)
     = Z.of_nat (length r.(QueryEscrowEvents.withdrawals)
                 + length r.(QueryEscrowEvents.cancellations)
                 + length r.(QueryEscrowEvents.rescues)).
Proof.
  cbv zeta. split; [reflexivity|].
  match goal with
  | |- QueryEscrowEvents.totalEvents ?r = _ =>
      destruct (queryContractEvents_returns_every_log
                  {| QueryEscrowEvents.getBlockNumber := Ok 40;
                     QueryEscrowEvents.queryFilter := fun name _ _ =>
                       match name with
                       | QueryEscrowEvents.EscrowCancelled =>
                           Ok [ {| QueryEscrowEvents.log_args :=
                                     Some QueryEscrowEvents.EscrowCancelledArgs;
                                   QueryEscrowEvents.log_blockNumber := 35;
                                   QueryEscrowEvents.log_transactionHash :=
                                     "0xbbb2" |} ]
                       | _ => Ok []
                       end;
                     QueryEscrowEvents.getBlock := fun n =>
                       Ok (Some
                             {| QueryEscrowEvents.block_number := n;
                                QueryEscrowEvents.block_hash := "0xb10c";
                                QueryEscrowEvents.block_timestamp :=
                                  1000 + n |})
                  |} r eq_refl)
        as (n & ws & cs & rs & _ & _ & _ & _ & _ & _ & _ & _ & Htotal);
      exact Htotal
  end.
Defined.

(** X9.  [queryEscrowContract] fails exactly when one of its five reads
    fails, and then with the error of the earliest of them in the order
    FACTORY, PROXY_BYTECODE_HASH, RESCUE_DELAY, balance, latest block: a
    later read is not attempted and no partial state is returned. *)
Theorem queryEscrowContract_first_error
  (reads : QueryEscrowEvents.ContractReads) :
  Outcome.message (QueryEscrowEvents.queryEscrowContract reads)
  = Outcome.firstError
      [ Outcome.message reads.(QueryEscrowEvents.FACTORY);
        Outcome.message reads.(QueryEscrowEvents.PROXY_BYTECODE_HASH);
        Outcome.message reads.(QueryEscrowEvents.RESCUE_DELAY);
        Outcome.message reads.(QueryEscrowEvents.getBalance);
        Outcome.message reads.(QueryEscrowEvents.getLatestBlock) ].
Proof.
  unfold QueryEscrowEvents.queryEscrowContract.
  destruct (QueryEscrowEvents.FACTORY reads); cbn; [|reflexivity].
  destruct (QueryEscrowEvents.PROXY_BYTECODE_HASH reads); cbn; [|reflexivity].
  destruct (QueryEscrowEvents.RESCUE_DELAY reads); cbn; [|reflexivity].
  destruct (QueryEscrowEvents.getBalance reads); cbn; [|reflexivity].
  destruct (QueryEscrowEvents.getLatestBlock reads); reflexivity.
Qed.

(** X10.  The rescue delay and the balance are kept in the state returned
    by [queryEscrowContract] as decimal texts, which lose nothing: two sets
    of reads that give the same state have read the same factory address,
    bytecode hash, rescue delay and balance, and latest blocks with the same
    timestamp.  The other properties of the latest block are not kept. *)
Theorem queryEscrowContract_state_determines_reads
  (reads1 reads2 : QueryEscrowEvents.ContractReads)
  (state : QueryEscrowEvents.ContractState) :
  QueryEscrowEvents.queryEscrowContract reads1 = Ok state ->
  QueryEscrowEvents.queryEscrowContract reads2 = Ok state ->
  reads1.(QueryEscrowEvents.FACTORY) = reads2.(QueryEscrowEvents.FACTORY)
  /\ reads1.(QueryEscrowEvents.PROXY_BYTECODE_HASH)
     = reads2.(QueryEscrowEvents.PROXY_BYTECODE_HASH)
  /\ reads1.(QueryEscrowEvents.RESCUE_DELAY)
     = reads2.(QueryEscrowEvents.RESCUE_DELAY)
  /\ reads1.(QueryEscrowEvents.getBalance)
     = reads2.(QueryEscrowEvents.getBalance)
  /\ exists block1 block2 : QueryEscrowEvents.Block,
       reads1.(QueryEscrowEvents.getLatestBlock) = Ok block1
       /\ reads2.(QueryEscrowEvents.getLatestBlock) = Ok block2
       /\ block1.(QueryEscrowEvents.block_timestamp)
          = block2.(QueryEscrowEvents.block_timestamp).
Proof.
  unfold QueryEscrowEvents.queryEscrowContract.
  destruct reads1 as [f1 h1 d1 b1 k1], reads2 as [f2 h2 d2 b2 k2]. cbn.
  destruct f1, h1, d1, b1, k1 as [blk1|]; cbn; try discriminate.
  destruct f2, h2, d2, b2, k2 as [blk2|]; cbn; try discriminate.
  intros [= <-] [= -> -> Hd Hb Ht].
  apply toString_inj in Hd, Hb. subst.
  repeat split. exists blk1, blk2. repeat split. symmetry. exact Ht.
Qed.

Lemma queryEscrowContract_state_determines_reads_witness :
  let reads1 :=
    {| QueryEscrowEvents.FACTORY := Ok "0xfa";
       QueryEscrowEvents.PROXY_BYTECODE_HASH := Ok "0xb7";
       QueryEscrowEvents.RESCUE_DELAY := Ok 1800;
       QueryEscrowEvents.getBalance := Ok 3000;
       QueryEscrowEvents.getLatestBlock :=
         Ok {| QueryEscrowEvents.block_number := 41;
               QueryEscrowEvents.block_hash := "0xb41";
               QueryEscrowEvents.block_timestamp := 1700000000 |} |} in
  let reads2 :=
    {| QueryEscrowEvents.FACTORY := Ok "0xfa";
       QueryEscrowEvents.PROXY_BYTECODE_HASH := Ok "0xb7";
       QueryEscrowEvents.RESCUE_DELAY := Ok 1800;
       QueryEscrowEvents.getBalance := Ok 3000;
       QueryEscrowEvents.getLatestBlock :=
         Ok {| QueryEscrowEvents.block_number := 42;
               QueryEscrowEvents.block_hash := "0xb42";
               QueryEscrowEvents.block_timestamp := 1700000000 |} |} in
  let state :=
    {| QueryEscrowEvents.factory := "0xfa";
       QueryEscrowEvents.proxyBytecodeHash := "0xb7";
       QueryEscrowEvents.rescueDelay := "1800";
       QueryEscrowEvents.balance := "3000";
       QueryEscrowEvents.currentTime := 1700000000 |} in
  QueryEscrowEvents.queryEscrowContract reads1 = Ok state
  /\ QueryEscrowEvents.queryEscrowContract reads2 = Ok state
  /\ reads1 <> reads2
  /\ reads1.(QueryEscrowEvents.RESCUE_DELAY)
     = reads2.(QueryEscrowEvents.RESCUE_DELAY)
  /\ reads1.(QueryEscrowEvents.getBalance)
     = reads2.(QueryEscrowEvents.getBalance).
Proof.
  cbv zeta. split; [reflexivity|]. split; [reflexivity|].
  split; [discriminate|].
  match goal with
  | |- QueryEscrowEvents.RESCUE_DELAY ?reads1
       = QueryEscrowEvents.RESCUE_DELAY ?reads2 /\ _ =>
      destruct (queryEscrowContract_state_determines_reads reads1 reads2
                  {| QueryEscrowEvents.factory := "0xfa";
                     QueryEscrowEvents.proxyBytecodeHash := "0xb7";
                     QueryEscrowEvents.rescueDelay := "1800";
                     QueryEscrowEvents.balance := "3000";
                     QueryEscrowEvents.currentTime := 1700000000 |}
                  eq_refl eq_refl)
        as (_ & _ & Hdelay & Hbalance & _)
  end.
  split; [exact Hdelay|exact Hbalance].
Defined.

(** X11.  [queryDeploymentTransaction] never throws and never reports a real
    deployment: it returns [null] when the code read fails, when the code is
    "0x" or when the block number read fails, and otherwise the fixed record
    whose block number, transaction hash and timestamp are all "Unknown". *)
Theorem queryDeploymentTransaction_outcomes (getCode : Result string)
  (blockNumber : Result Z) :
  match QueryEscrowEvents.queryDeploymentTransaction getCode blockNumber with
  | Ok None =>
      Outcome.message getCode <> None
      \/ getCode = Ok "0x"
      \/ Outcome.message blockNumber <> None
  | Ok (Some info) =>
      info = {| QueryEscrowEvents.info_blockNumber := "Unknown";
                QueryEscrowEvents.info_transactionHash := "Unknown";
                QueryEscrowEvents.info_timestamp := "Unknown" |}
      /\ Outcome.message getCode = None
      /\ getCode <> Ok "0x"
      /\ Outcome.message blockNumber = None
  | Throw _ => False
  end.
Proof.
  unfold QueryEscrowEvents.queryDeploymentTransaction.
  destruct getCode as [code|m]; cbn; [|left; discriminate].
  case_bool_decide as Hcode; cbn.
  - right; left. subst. reflexivity.
  - destruct blockNumber as [n|m]; cbn.
    + repeat split. intros [= ->]. apply Hcode. reflexivity.
    + right; right. discriminate.
Qed.

(* ===================================================================== *)
(** * Order files: the name written and the name looked for *)
(* ===================================================================== *)

Lemma startsWith_iff (p s : string) :
  JsString.startsWith p s = true <-> exists t, s = p +:+ t.
Proof.
  revert s. induction p as [|a p IH]; intros s; cbn.
  - split; [eauto|reflexivity].
  - destruct s as [|b s]; cbn.
    + split; [discriminate|]. intros [t [=]].
    + rewrite andb_true_iff, bool_decide_eq_true, IH. split.
      * intros [-> [t ->]]. eauto.
      * intros [t [= -> ->]]. eauto.
Qed.

Lemma endsWith_iff (p s : string) :
  JsString.endsWith p s = true <-> exists t, s = t +:+ p.
Proof.
  induction s as [|b s IH]; cbn.
  - rewrite orb_false_r, bool_decide_eq_true. split.
    + intros <-. exists EmptyString. reflexivity.
    + intros [[|c t] H]; cbn in H; [exact H|discriminate].
  - rewrite orb_true_iff, bool_decide_eq_true, IH. split.
    + intros [<-|[t ->]].
      * exists EmptyString. reflexivity.
      * exists (String b t). reflexivity.
    + intros [[|c t] H]; cbn in H.
      * left. exact H.
      * injection H as -> ->. right. eauto.
Qed.

Lemma isOrderFile_iff (file : string) :
  QueryEscrowEnhanced.isOrderFile file = true
  <-> (exists t, file = "order-" +:+ t) /\ (exists t, file = t +:+ ".json").
Proof.
  unfold QueryEscrowEnhanced.isOrderFile.
  rewrite andb_true_iff, startsWith_iff, endsWith_iff. reflexivity.
Qed.

(** X12.  [findLatestOrderFile] returns [null] exactly when no entry of the
    directory both starts with "order-" and ends with ".json"; otherwise it
    returns, joined to the directory, an entry of the directory that passes
    both tests.  (The sort only permutes the entries.) *)
Theorem findLatestOrderFile_outcomes (join : string -> string -> string)
  (sort : list string -> list string) (jsclientDir : string)
  (files : list string) :
  (forall l, sort l ≡ₚ l) ->
  match QueryEscrowEnhanced.findLatestOrderFile join sort jsclientDir files
  with
  | Ok None =>
      forall file, file ∈ files ->
        ~ ((exists t, file = "order-" +:+ t)
           /\ (exists t, file = t +:+ ".json"))
  | Ok (Some path) =>
      exists file,
        path = join jsclientDir file
        /\ file ∈ files
        /\ (exists t, file = "order-" +:+ t)
        /\ (exists t, file = t +:+ ".json")
  | Throw _ => False
  end.
Proof.
  intros Hsort. unfold QueryEscrowEnhanced.findLatestOrderFile. cbv zeta.
  case_bool_decide as Hlen.
  - apply nil_length_inv in Hlen. intros file Hfile Hname.
    apply isOrderFile_iff in Hname.
    exact (filter_nil_not_elem_of _ _ file Hlen Hname Hfile).
  - destruct (sort _) as [|first rest] eqn:Hsorted.
    + apply Hlen. specialize (Hsort (filter
                     (fun file => QueryEscrowEnhanced.isOrderFile file = true)
                     files)).
      rewrite Hsorted in Hsort. apply Permutation_nil_l in Hsort.
      rewrite <- Hsort. reflexivity.
    + exists first. split; [reflexivity|].
      assert (Hin : first ∈ filter
                      (fun file =>
                         QueryEscrowEnhanced.isOrderFile file = true) files).
      { rewrite <- (Hsort _), Hsorted. apply elem_of_cons. left. reflexivity. }
      apply list_elem_of_filter in Hin as [Hname Hin].
      apply isOrderFile_iff in Hname. tauto.
Qed.

Lemma findLatestOrderFile_outcomes_witness :
  (forall l : list string, (fun l => l) l ≡ₚ l)
  /\ exists file,
       "/jsclient/order-a.json" = "/jsclient" +:+ "/" +:+ file
       /\ file ∈ ["README.md"; "order-a.json"; "order-b.txt"]
       /\ (exists t, file = "order-" +:+ t)
       /\ (exists t, file = t +:+ ".json").
Proof.
  assert (Hid : forall l : list string, (fun l => l) l ≡ₚ l)
    by (intros l; reflexivity).
  split; [exact Hid|].
  exact (findLatestOrderFile_outcomes
           (fun dir file => dir +:+ "/" +:+ file) (fun l => l)
           "/jsclient" ["README.md"; "order-a.json"; "order-b.txt"] Hid).
Defined.

(** A directory that holds an order file makes the lookup answer with one. *)
Lemma findLatestOrderFile_found (join : string -> string -> string)
  (sort : list string -> list string) (jsclientDir : string)
  (files : list string) (name : string) :
  (forall l, sort l ≡ₚ l) ->
  name ∈ files ->
  QueryEscrowEnhanced.isOrderFile name = true ->
  exists file,
    QueryEscrowEnhanced.findLatestOrderFile join sort jsclientDir files
    = Ok (Some (join jsclientDir file))
    /\ file ∈ files
    /\ QueryEscrowEnhanced.isOrderFile file = true.
Proof.
  intros Hsort Hin Hname.
  unfold QueryEscrowEnhanced.findLatestOrderFile. cbv zeta.
  assert (Hf : name ∈ filter
                 (fun file => QueryEscrowEnhanced.isOrderFile file = true)
                 files)
    by (apply list_elem_of_filter; split; assumption).
  case_bool_decide as Hlen.
  { apply nil_length_inv in Hlen. rewrite Hlen in Hf.
    apply elem_of_nil in Hf. destruct Hf. }
  destruct (sort _) as [|first rest] eqn:Hsorted.
  { rewrite <- (Hsort _), Hsorted in Hf. apply elem_of_nil in Hf.
    destruct Hf. }
  exists first. split; [reflexivity|].
  assert (H1 : first ∈ filter
                 (fun file => QueryEscrowEnhanced.isOrderFile file = true)
                 files).
  { rewrite <- (Hsort _), Hsorted. apply elem_of_cons. left. reflexivity. }
  apply list_elem_of_filter in H1 as [H1 H2]. split; assumption.
Qed.

(** Every name that order-init.js writes passes the two tests. *)
Lemma filename_isOrderFile (isoNow : string) :
  QueryEscrowEnhanced.isOrderFile (OrderInit.filename isoNow) = true.
Proof.
  apply isOrderFile_iff. unfold OrderInit.filename. cbv zeta. split.
  - eexists. reflexivity.
  - eexists (String "o" (String "r" (String "d" (String "e" (String "r"
               (String "-" _)))))). reflexivity.
Qed.

(** X13.  The writer and the reader of order files agree on the name: the
    file that order-init.js writes, whatever the timestamp, is one that
    [findLatestOrderFile] looks for, so once it is in the directory the
    lookup does not return [null]. *)
Theorem written_order_file_is_found (join : string -> string -> string)
  (sort : list string -> list string) (jsclientDir : string)
  (files : list string) (isoNow : string) :
  (forall l, sort l ≡ₚ l) ->
  OrderInit.filename isoNow ∈ files ->
  exists file,
    QueryEscrowEnhanced.findLatestOrderFile join sort jsclientDir files
    = Ok (Some (join jsclientDir file))
    /\ file ∈ files
    /\ QueryEscrowEnhanced.isOrderFile file = true.
Proof.
  intros Hsort Hin.
  exact (findLatestOrderFile_found join sort jsclientDir files _ Hsort Hin
           (filename_isOrderFile isoNow)).
Qed.

Lemma written_order_file_is_found_witness :
  (forall l : list string, (fun l => l) l ≡ₚ l)
  /\ OrderInit.filename "2025-07-30T12:34:56.789Z"
     ∈ ["notes.txt"; "order-2025-07-30T12-34-56-789Z.json"]
  /\ exists file,
       QueryEscrowEnhanced.findLatestOrderFile
         (fun dir file => dir +:+ "/" +:+ file) (fun l => l) "/jsclient"
         ["notes.txt"; "order-2025-07-30T12-34-56-789Z.json"]
       = Ok (Some ("/jsclient" +:+ "/" +:+ file))
       /\ file ∈ ["notes.txt"; "order-2025-07-30T12-34-56-789Z.json"]
       /\ QueryEscrowEnhanced.isOrderFile file = true.
Proof.
  assert (Hid : forall l : list string, (fun l => l) l ≡ₚ l)
    by (intros l; reflexivity).
  assert (Hin : OrderInit.filename "2025-07-30T12:34:56.789Z"
                ∈ ["notes.txt"; "order-2025-07-30T12-34-56-789Z.json"]).
  { apply elem_of_cons. right. apply elem_of_cons. left. reflexivity. }
  split; [exact Hid|]. split; [exact Hin|].
  exact (written_order_file_is_found
           (fun dir file => dir +:+ "/" +:+ file) (fun l => l) "/jsclient"
           ["notes.txt"; "order-2025-07-30T12-34-56-789Z.json"]
           "2025-07-30T12:34:56.789Z" Hid Hin).
Defined.

(** Removing ".json" from a text without '.' followed by ".json" gives the
    text back. *)
Lemma replace_json_suffix (w : string) :
  (forall t1 t2, w <> t1 +:+ String "."%char t2) ->
  JsString.replace ".json" EmptyString (w +:+ ".json") = w.
Proof.
  induction w as [|c w IH]; intros Hdot; [reflexivity|].
  assert (Hc : "."%char <> c).
  { intros <-. apply (Hdot EmptyString w). reflexivity. }
  change (String c w +:+ ".json") with (String c (w +:+ ".json")).
  simpl. rewrite (bool_decide_eq_false_2 _ Hc). simpl.
  f_equal. apply IH. intros t1 t2 ->.
  apply (Hdot (String c t1) t2). reflexivity.
Qed.

(** After the replacement of ':' and '.' no '.' is left. *)
Lemma replaceEach_no_dot (s t1 t2 : string) :
  JsString.replaceEach
    (fun c => bool_decide (c = ":"%char) || bool_decide (c = "."%char))
    "-"%char s
  <> t1 +:+ String "."%char t2.
Proof.
  revert t1. induction s as [|a s IH]; intros t1; cbn.
  - destruct t1; discriminate.
  - destruct t1 as [|b t1]; cbn.
    + intros [= H _].
      repeat case_bool_decide; simpl in H; subst;
        first [discriminate | contradiction].
    + intros [= _ H]. exact (IH t1 H).
Qed.

(** X14.  The text from which the sort of [findLatestOrderFile] builds its
    date is not the timestamp under which the file was written: for the
    name that order-init.js writes at the ISO time [isoNow], it is [isoNow]
    with every '-', ':' and '.' turned into ':' (the date
    2025-07-30T12:34:56.789Z comes back as 2025:07:30T12:34:56:789Z). *)
Theorem sortKeyText_of_written_name (isoNow : string) :
  QueryEscrowEnhanced.sortKeyText (OrderInit.filename isoNow)
  = JsString.replaceEach
      (fun c => bool_decide (c = "-"%char) || bool_decide (c = ":"%char)
                || bool_decide (c = "."%char))
      ":"%char isoNow.
Proof.
  unfold QueryEscrowEnhanced.sortKeyText, OrderInit.filename. cbv zeta.
  change (JsString.replace "order-" EmptyString
            ("order-" +:+ ?w +:+ ".json")) with (w +:+ ".json").
  rewrite replace_json_suffix by (intros t1 t2; apply replaceEach_no_dot).
  induction isoNow as [|a s IH]; cbn; [reflexivity|].
  rewrite IH. f_equal.
  destruct (decide (a = ":"%char)) as [->|H1]; [reflexivity|].
  destruct (decide (a = "."%char)) as [->|H2]; [reflexivity|].
  destruct (decide (a = "-"%char)) as [->|H3]; [reflexivity|].
  rewrite !(bool_decide_eq_false_2 (a = ":"%char)),
    !(bool_decide_eq_false_2 (a = "."%char)) by assumption.
  cbn. rewrite !(bool_decide_eq_false_2 (a = "-"%char)) by assumption.
  reflexivity.
Qed.

(* ===================================================================== *)
(** * Further properties of funding and verification *)
(* ===================================================================== *)

(** Case analysis on every answer of the chain that a step consults. *)
Ltac chain_cases :=
  repeat first
    [ progress cbn
    | match goal with
      | |- context [Z.ltb ?a ?b] => destruct (Z.ltb_spec a b)
      | |- context [Z.leb ?a ?b] => destruct (Z.leb_spec a b)
      | |- context [getFeeData ?c] => destruct (getFeeData c) as [?fee|?e]
      | |- context [sendTransaction ?c ?r] =>
          destruct (sendTransaction c r) as [?tx|?e]
      | |- context [wait ?t] => destruct (wait t) as [?receipt|?e]
      | |- context [bool_decide ?P] => destruct (bool_decide_reflect P)
      end ].

(** X15.  When the deployer balance is below amount + safetyDeposit, step 3
    sends nothing and leaves the deployment object as it was (no funding
    status is written); it reports the shortfall on the console and goes on
    without an error. *)
Theorem funding_skipped_when_balance_short (im : EscrowImmutables)
  (contractAddress : string) (balance : Z) (first retry : Chain)
  (w : World) :
  balance < totalFundingAmount im ->
  let run := step3_funding im contractAddress (Ok balance) first retry w in
  run.1 = Ok tt
  /\ run.2.(sent) = w.(sent)
  /\ run.2.(escrowDeployment) = w.(escrowDeployment)
  /\ (error, "❌ Insufficient balance for funding!") ∈ run.2.(console).
Proof.
  intros Hlt run. subst run. unfold step3_funding. run_script.
  destruct (Z.ltb_spec balance (totalFundingAmount im)); [|lia]. cbn.
  repeat split. rewrite !elem_of_app, !elem_of_cons. tauto.
Qed.

Lemma funding_skipped_when_balance_short_witness :
  let im := escrowImmutables "0x01" "0x02" "0xma" "0xta" "0x00"
              2000 1000 1000 in
  let chain :=
    {| getFeeData := Ok {| fee_gasPrice := Some 7 |};
       sendTransaction := fun _ => Throw "never asked" |} in
  let w := deployedWorld "0xde" "0xc0" "0xd1" in
  2999 < totalFundingAmount im
  /\ (step3_funding im "0xc0" (Ok 2999) chain chain w).2.(sent) = []
  /\ (step3_funding im "0xc0" (Ok 2999) chain chain w).2.(escrowDeployment)
       !! "fundingStatus" = None.
Proof.
  cbv zeta.
  assert (Hlt : 2999 < totalFundingAmount
                         (escrowImmutables "0x01" "0x02" "0xma" "0xta" "0x00"
                            2000 1000 1000))
    by (unfold totalFundingAmount; cbn; lia).
  split; [exact Hlt|].
  pose proof (funding_skipped_when_balance_short _ "0xc0" 2999
                {| getFeeData := Ok {| fee_gasPrice := Some 7 |};
                   sendTransaction := fun _ => Throw "never asked" |}
                {| getFeeData := Ok {| fee_gasPrice := Some 7 |};
                   sendTransaction := fun _ => Throw "never asked" |}
                (deployedWorld "0xde" "0xc0" "0xd1") Hlt)
    as (_ & Hsent & Hdep & _).
  split; [exact Hsent|]. rewrite Hdep. reflexivity.
Defined.

(** X16.  Whatever the chain answers, step 3 hands at most two requests to
    the wallet: each goes to the contract address with the value
    amount + safetyDeposit, and the gas limits are 1000000 for the first and
    2000000 for the second, in that order. *)
Theorem funding_requests (im : EscrowImmutables) (contractAddress : string)
  (deployerBalance : Result Z) (first retry : Chain) (w : World) :
  let w' :=
    (step3_funding im contractAddress deployerBalance first retry w).2 in
  exists new : list TxRequest,
    w'.(sent) = w.(sent) ++ new
    /\ (forall req, req ∈ new ->
          req.(to) = contractAddress
          /\ req.(value) = totalFundingAmount im)
    /\ map gasLimit new
       ∈ [ []; [1000000]; [2000000]; [1000000; 2000000] ].
Proof.
  cbv zeta. unfold step3_funding. run_script.
  destruct deployerBalance as [balance|m]; cbn;
    [|exists []; rewrite app_nil_r; set_solver].
  chain_cases;
    rewrite <- ?app_assoc;
    eexists; (split; [try reflexivity; symmetry; apply app_nil_r|]);
    cbn; (split; [|set_solver]);
    intros req Hreq;
    repeat (apply elem_of_cons in Hreq as [->|Hreq]; [split; reflexivity|]);
    apply elem_of_nil in Hreq; destruct Hreq.
Qed.

(** What step 3 returns, and what it leaves alone in the deployment
    object. *)
Lemma step3_funding_effect (im : EscrowImmutables) (contractAddress : string)
  (deployerBalance : Result Z) (first retry : Chain) (w : World) :
  let run := step3_funding im contractAddress deployerBalance first retry w in
  run.1 = match deployerBalance with
          | Ok _ => Ok tt
          | Throw m => Throw m
          end
  /\ forall prop : string,
       "fundingTxHash" <> prop -> "fundingAmount" <> prop ->
       "fundingStatus" <> prop -> "gasUsed" <> prop ->
       "fundingError" <> prop ->
       run.2.(escrowDeployment) !! prop = w.(escrowDeployment) !! prop.
Proof.
  cbv zeta. unfold step3_funding. run_script.
  destruct deployerBalance as [balance|m]; cbn; [|split; reflexivity].
  chain_cases; (split; [reflexivity|]); intros prop H1 H2 H3 H4 H5;
    rewrite ?lookup_insert_ne by assumption; reflexivity.
Qed.

(** X17.  The only error that leaves step 3 is the one of the deployer
    balance read: every error of a funding attempt is caught inside the
    step. *)
Theorem funding_errors_are_caught (im : EscrowImmutables)
  (contractAddress : string) (deployerBalance : Result Z)
  (first retry : Chain) (w : World) :
  (step3_funding im contractAddress deployerBalance first retry w).1
  = match deployerBalance with
    | Ok _ => Ok tt
    | Throw m => Throw m
    end.
Proof.
  exact (proj1 (step3_funding_effect im contractAddress deployerBalance
                  first retry w)).
Qed.

(** X18.  Step 3 writes only the five funding properties of the deployment
    object (fundingTxHash, fundingAmount, fundingStatus, gasUsed,
    fundingError): every other property, the deployment and verification
    status among them, keeps its value. *)
Theorem funding_writes_only_funding_properties (im : EscrowImmutables)
  (contractAddress : string) (deployerBalance : Result Z)
  (first retry : Chain) (w : World) (prop : string) :
  prop ∉ ["fundingTxHash"; "fundingAmount"; "fundingStatus"; "gasUsed";
          "fundingError"] ->
  (step3_funding im contractAddress deployerBalance first retry w).2
    .(escrowDeployment) !! prop
  = w.(escrowDeployment) !! prop.
Proof.
  intros Hprop.
  apply (proj2 (step3_funding_effect im contractAddress deployerBalance
                  first retry w));
    intros <-; set_solver.
Qed.

Lemma funding_writes_only_funding_properties_witness :
  let im := escrowImmutables "0x01" "0x02" "0xma" "0xta" "0x00"
              2000 1000 1000 in
  let chain :=
    {| getFeeData := Ok {| fee_gasPrice := Some 7 |};
       sendTransaction := fun _ => Throw "no route" |} in
  let w := deployedWorld "0xde" "0xc0" "0xd1" in
  ("deploymentStatus"
     ∉ ["fundingTxHash"; "fundingAmount"; "fundingStatus"; "gasUsed";
        "fundingError"])
  /\ (step3_funding im "0xc0" (Ok 5000) chain chain w).2.(escrowDeployment)
       !! "deploymentStatus" = Some (VStr "deployed").
Proof.
  cbv zeta.
  assert (Hprop : "deploymentStatus"
                    ∉ ["fundingTxHash"; "fundingAmount"; "fundingStatus";
                       "gasUsed"; "fundingError"]).
  { rewrite list_elem_of_In. cbn. intuition discriminate. }
  split; [exact Hprop|].
  exact (funding_writes_only_funding_properties
           (escrowImmutables "0x01" "0x02" "0xma" "0xta" "0x00"
              2000 1000 1000)
           "0xc0" (Ok 5000)
           {| getFeeData := Ok {| fee_gasPrice := Some 7 |};
              sendTransaction := fun _ => Throw "no route" |}
           {| getFeeData := Ok {| fee_gasPrice := Some 7 |};
              sendTransaction := fun _ => Throw "no route" |}
           (deployedWorld "0xde" "0xc0" "0xd1") "deploymentStatus" Hprop).
Defined.

(** X19.  A funding status that step 3 has turned into completed comes with
    a consistent record: the funding amount is the decimal text of
    amount + safetyDeposit, a transaction hash and the gas used are
    recorded, and a request has reached the wallet. *)
Theorem funding_completed_record (im : EscrowImmutables)
  (contractAddress : string) (deployerBalance : Result Z)
  (first retry : Chain) (w : World) :
  w.(escrowDeployment) !! "fundingStatus" <> Some (VStr "completed") ->
  let w' :=
    (step3_funding im contractAddress deployerBalance first retry w).2 in
  w'.(escrowDeployment) !! "fundingStatus" = Some (VStr "completed") ->
  w'.(escrowDeployment) !! "fundingAmount"
  = Some (VStr (toString (totalFundingAmount im)))
  /\ (exists h, w'.(escrowDeployment) !! "fundingTxHash" = Some (VStr h))
  /\ (exists g, w'.(escrowDeployment) !! "gasUsed" = Some (VStr g))
  /\ w'.(sent) <> w.(sent).
Proof.
  intros Hbefore w'. subst w'. unfold step3_funding. run_script.
  destruct deployerBalance as [balance|m]; cbn; [|contradiction].
  chain_cases; intros Hafter;
    try (exfalso; exact (Hbefore Hafter));
    simplify_map_eq;
    (split; [reflexivity|]); (split; [eauto|]); (split; [eauto|]);
    rewrite <- ?app_assoc;
    intros Heq; apply (f_equal length) in Heq;
    rewrite ?length_app in Heq; cbn in Heq; lia.
Qed.

Lemma funding_completed_record_witness :
  let im := escrowImmutables "0x01" "0x02" "0xma" "0xta" "0x00"
              2000 1000 1000 in
  let chain :=
    {| getFeeData := Ok {| fee_gasPrice := Some 7 |};
       sendTransaction := fun _ =>
         Ok {| hash := "0xf1";
               wait := Ok {| status := Some 1;
                             blockNumber := 5;
                             gasUsed := 21000 |} |} |} in
  let w := deployedWorld "0xde" "0xc0" "0xd1" in
  let w' := (step3_funding im "0xc0" (Ok 5000) chain chain w).2 in
  w.(escrowDeployment) !! "fundingStatus" <> Some (VStr "completed")
  /\ w'.(escrowDeployment) !! "fundingStatus" = Some (VStr "completed")
  /\ w'.(escrowDeployment) !! "fundingAmount" = Some (VStr "3000").
Proof.
  cbv zeta.
  assert (Hbefore : (deployedWorld "0xde" "0xc0" "0xd1").(escrowDeployment)
                      !! "fundingStatus" <> Some (VStr "completed"))
    by (vm_compute; discriminate).
  split; [exact Hbefore|]. split; [reflexivity|].
  exact (proj1 (funding_completed_record
                  (escrowImmutables "0x01" "0x02" "0xma" "0xta" "0x00"
                     2000 1000 1000)
                  "0xc0" (Ok 5000)
                  {| getFeeData := Ok {| fee_gasPrice := Some 7 |};
                     sendTransaction := fun _ =>
                       Ok {| hash := "0xf1";
                             wait := Ok {| status := Some 1;
                                           blockNumber := 5;
                                           gasUsed := 21000 |} |} |}
                  {| getFeeData := Ok {| fee_gasPrice := Some 7 |};
                     sendTransaction := fun _ =>
                       Ok {| hash := "0xf1";
                             wait := Ok {| status := Some 1;
                                           blockNumber := 5;
                                           gasUsed := 21000 |} |} |}
                  (deployedWorld "0xde" "0xc0" "0xd1") Hbefore eq_refl)).
Defined.

(** X20.  A retry that succeeds does not clear the error of the first
    attempt: when the first attempt throws and the retry is mined with
    receipt status 1, the funding status is completed while [fundingError]
    still holds the message of the first attempt. *)
Theorem completed_retry_keeps_first_error (im : EscrowImmutables)
  (contractAddress : string) (balance : Z) (first retry : Chain) (w : World)
  (e1 h : string) (r : Receipt) :
  totalFundingAmount im <= balance ->
  attempt_outcome first contractAddress (totalFundingAmount im) 1000000
  = Throw e1 ->
  attempt_outcome retry contractAddress (totalFundingAmount im) 2000000
  = Ok (h, r) ->
  r.(status) = Some 1 ->
  let w' :=
    (step3_funding im contractAddress (Ok balance) first retry w).2 in
  w'.(escrowDeployment) !! "fundingStatus" = Some (VStr "completed")
  /\ w'.(escrowDeployment) !! "fundingTxHash" = Some (VStr h)
  /\ w'.(escrowDeployment) !! "fundingError" = Some (VStr e1).
Proof.
  intros Hbal H1 H2 Hr w'. subst w'. revert H1 H2.
  unfold step3_funding, attempt_outcome. run_script.
  destruct (Z.ltb_spec balance (totalFundingAmount im)); [lia|].
  chain_cases; intros H1 H2; simplify_eq; simplify_map_eq; auto.
Qed.

Lemma completed_retry_keeps_first_error_witness :
  let im := escrowImmutables "0x01" "0x02" "0xma" "0xta" "0x00"
              2000 1000 1000 in
  let chain :=
    {| getFeeData := Ok {| fee_gasPrice := Some 7 |};
       sendTransaction := fun req =>
         if req.(gasLimit) <? 1500000 then Throw "out of gas"
         else Ok {| hash := "0xf2";
                    wait := Ok {| status := Some 1;
                                  blockNumber := 6;
                                  gasUsed := 30000 |} |} |} in
  let w' :=
    (step3_funding im "0xc0" (Ok 5000) chain chain
       (deployedWorld "0xde" "0xc0" "0xd1")).2 in
  totalFundingAmount im <= 5000
  /\ w'.(escrowDeployment) !! "fundingStatus" = Some (VStr "completed")
  /\ w'.(escrowDeployment) !! "fundingTxHash" = Some (VStr "0xf2")
  /\ w'.(escrowDeployment) !! "fundingError" = Some (VStr "out of gas").
Proof.
  cbv zeta.
  assert (Hbal : totalFundingAmount
                   (escrowImmutables "0x01" "0x02" "0xma" "0xta" "0x00"
                      2000 1000 1000) <= 5000)
    by (unfold totalFundingAmount; cbn; lia).
  split; [exact Hbal|].
  exact (completed_retry_keeps_first_error _ "0xc0" 5000
           {| getFeeData := Ok {| fee_gasPrice := Some 7 |};
              sendTransaction := fun req =>
                if req.(gasLimit) <? 1500000 then Throw "out of gas"
                else Ok {| hash := "0xf2";
                           wait := Ok {| status := Some 1;
                                         blockNumber := 6;
                                         gasUsed := 30000 |} |} |}
           {| getFeeData := Ok {| fee_gasPrice := Some 7 |};
              sendTransaction := fun req =>
                if req.(gasLimit) <? 1500000 then Throw "out of gas"
                else Ok {| hash := "0xf2";
                           wait := Ok {| status := Some 1;
                                         blockNumber := 6;
                                         gasUsed := 30000 |} |} |}
           (deployedWorld "0xde" "0xc0" "0xd1") "out of gas" "0xf2"
           {| status := Some 1; blockNumber := 6; gasUsed := 30000 |}
           Hbal eq_refl eq_refl eq_refl).
Defined.

(** Case analysis on the three reads of step 4 and on its tests. *)
Ltac reads_cases :=
  repeat first
    [ progress cbn
    | match goal with
      | |- context [RESCUE_DELAY ?r] =>
          destruct (RESCUE_DELAY r) as [?delay|?e]
      | |- context [getBalance ?r] =>
          destruct (getBalance r) as [?balance|?e]
      | |- context [FACTORY ?r] => destruct (FACTORY r) as [?factory|?e]
      | |- context [bool_decide ?P] => destruct (bool_decide_reflect P)
      | |- context [Z.leb ?a ?b] => destruct (Z.leb_spec a b)
      end ].

(** X21.  Step 4 never throws and never sends anything.  It ends with
    [verificationStatus] failed exactly when one of its three reads
    (RESCUE_DELAY, balance, FACTORY) throws, [verificationError] being the
    message of the earliest one; when the three reads answer it ends with
    verified, whatever the values read, and writes no verification
    error. *)
Theorem verification_outcome (im : EscrowImmutables) (reads : Reads)
  (w : World) :
  let run := step4_verification im reads w in
  run.1 = Ok tt
  /\ run.2.(sent) = w.(sent)
  /\ match Outcome.firstError
             [ Outcome.message reads.(RESCUE_DELAY);
               Outcome.message reads.(getBalance);
               Outcome.message reads.(FACTORY) ] with
     | Some m =>
         run.2.(escrowDeployment)
         = <["verificationError" := VStr m]>
             (<["verificationStatus" := VStr "failed"]> w.(escrowDeployment))
     | None =>
         run.2.(escrowDeployment) !! "verificationStatus"
         = Some (VStr "verified")
         /\ run.2.(escrowDeployment) !! "verificationError"
            = w.(escrowDeployment) !! "verificationError"
     end.
Proof.
  cbv zeta. unfold step4_verification. run_script.
  reads_cases; repeat split; simplify_map_eq; reflexivity.
Qed.

(** X22.  The rescue delay is compared through decimal texts, which is the
    comparison of the integers: when the three reads answer, step 4 prints
    "Rescue delay mismatch!" exactly when the deployed delay differs from
    the 1800 seconds the script deployed with. *)
Theorem rescue_delay_mismatch_reported (im : EscrowImmutables)
  (reads : Reads) (w : World) (delay balance : Z) (factory : string) :
  reads.(RESCUE_DELAY) = Ok delay ->
  reads.(getBalance) = Ok balance ->
  reads.(FACTORY) = Ok factory ->
  (error, "❌ Rescue delay mismatch!") ∉ w.(console) ->
  (error, "❌ Rescue delay mismatch!")
    ∈ (step4_verification im reads w).2.(console)
  <-> delay <> 1800.
Proof.
  intros Hd Hb Hf Hfresh.
  destruct (step4_reads_answered im reads w delay balance factory Hd Hb Hf)
    as (_ & _ & Hconsole).
  cbv zeta in Hconsole. rewrite Hconsole. clear Hconsole.
  unfold balance_insufficient.
  assert (Htext : toString delay = toString rescueDelay <-> delay = 1800).
  { split; [apply toString_inj|intros ->; reflexivity]. }
  repeat match goal with
         | |- context [bool_decide ?P] => destruct (bool_decide_reflect P)
         | |- context [Z.leb ?a ?b] => destruct (Z.leb_spec a b)
         end;
    rewrite ?elem_of_app, ?elem_of_cons, ?elem_of_nil;
    intuition (try discriminate; try congruence).
Qed.

Lemma rescue_delay_mismatch_reported_witness :
  let im := escrowImmutables "0x01" "0x02" "0xma" "0xta" "0x00"
              2000 1000 1000 in
  let reads := {| RESCUE_DELAY := Ok 900;
                  getBalance := Ok 3000;
                  FACTORY := Ok "0xfa" |} in
  let w := deployedWorld "0xde" "0xc0" "0xd1" in
  ((error, "❌ Rescue delay mismatch!") ∉ w.(console))
  /\ ((error, "❌ Rescue delay mismatch!")
        ∈ (step4_verification im reads w).2.(console)
      <-> 900 <> 1800).
Proof.
  cbv zeta.
  assert (Hfresh : (error, "❌ Rescue delay mismatch!")
                     ∉ (deployedWorld "0xde" "0xc0" "0xd1").(console))
    by apply not_elem_of_nil.
  split; [exact Hfresh|].
  exact (rescue_delay_mismatch_reported
           (escrowImmutables "0x01" "0x02" "0xma" "0xta" "0x00"
              2000 1000 1000)
           {| RESCUE_DELAY := Ok 900;
              getBalance := Ok 3000;
              FACTORY := Ok "0xfa" |}
           (deployedWorld "0xde" "0xc0" "0xd1") 900 3000 "0xfa"
           eq_refl eq_refl eq_refl Hfresh).
Defined.

(** X23.  When the read of the deployer balance fails after the contract
    was deployed, nothing is sent and the verification is skipped, and the
    deployment itself is recorded as failed with the message of that read,
    although the contract address stays recorded; the script ends without an
    error. *)
Theorem balance_read_failure_marks_deployment_failed
  (im : EscrowImmutables) (contractAddress : string) (m : string)
  (first retry : Chain) (reads : Reads) (w : World) :
  let run :=
    afterDeployment im contractAddress (Throw m) first retry reads w in
  run.1 = Ok tt
  /\ run.2.(sent) = w.(sent)
  /\ run.2.(escrowDeployment)
     = <["deploymentError" := VStr m]>
         (<["deploymentStatus" := VStr "failed"]> w.(escrowDeployment))
  /\ run.2.(escrowDeployment) !! "contractAddress"
     = w.(escrowDeployment) !! "contractAddress"
  /\ run.2.(escrowDeployment) !! "verificationStatus"
     = w.(escrowDeployment) !! "verificationStatus".
Proof.
  cbv zeta. unfold afterDeployment, step3_funding. run_script.
  repeat split; simplify_map_eq; reflexivity.
Qed.

(** What step 4 returns, and what it leaves alone. *)
Lemma step4_verification_effect (im : EscrowImmutables) (reads : Reads)
  (w : World) :
  let run := step4_verification im reads w in
  run.1 = Ok tt
  /\ run.2.(escrowDeployment) !! "verificationStatus"
     ∈ [Some (VStr "verified"); Some (VStr "failed")]
  /\ forall prop : string,
       "verificationStatus" <> prop -> "verificationError" <> prop ->
       "contractBalance" <> prop -> "deployedRescueDelay" <> prop ->
       run.2.(escrowDeployment) !! prop = w.(escrowDeployment) !! prop.
Proof.
  cbv zeta. unfold step4_verification. run_script.
  reads_cases; (split; [reflexivity|]);
    (split; [simplify_map_eq; set_solver|]);
    intros prop H1 H2 H3 H4;
    rewrite ?lookup_insert_ne by assumption; reflexivity.
Qed.

(** X24.  When the deployer balance can be read, neither a failed funding
    nor a failed verification touches the deployment status or stops the
    script: [afterDeployment] ends without an error, leaves
    [deploymentStatus] and [deploymentError] as they were, and always runs
    the verification, also after a funding that failed or was skipped, so
    [verificationStatus] ends as verified or failed. *)
Theorem deployment_status_survives_funding (im : EscrowImmutables)
  (contractAddress : string) (balance : Z) (first retry : Chain)
  (reads : Reads) (w : World) :
  let run :=
    afterDeployment im contractAddress (Ok balance) first retry reads w in
  run.1 = Ok tt
  /\ run.2.(escrowDeployment) !! "deploymentStatus"
     = w.(escrowDeployment) !! "deploymentStatus"
  /\ run.2.(escrowDeployment) !! "deploymentError"
     = w.(escrowDeployment) !! "deploymentError"
  /\ run.2.(escrowDeployment) !! "verificationStatus"
     ∈ [Some (VStr "verified"); Some (VStr "failed")].
Proof.
  cbv zeta.
  destruct (step3_funding_effect im contractAddress (Ok balance) first retry w)
    as [Hr3 Hf3].
  cbv zeta in Hr3, Hf3.
  unfold afterDeployment, tryCatch, bind.
  destruct (step3_funding im contractAddress (Ok balance) first retry w)
    as [r3 w3].
  cbn in Hr3, Hf3. subst r3.
  destruct (step4_verification_effect im reads w3) as (Hr4 & Hs4 & Hf4).
  cbv zeta in Hr4, Hs4, Hf4.
  destruct (step4_verification im reads w3) as [r4 w4].
  cbn in Hr4, Hs4, Hf4. subst r4.
  unfold print, read, ret. cbn.
  repeat case_match; simplify_eq; cbn;
    (split; [reflexivity|]);
    rewrite Hf4, Hf3 by discriminate;
    (split; [reflexivity|]);
    rewrite Hf4, Hf3 by discriminate;
    (split; [reflexivity|]); exact Hs4.
Qed.
